(** * blog_publisher: the content pipeline of [src/blog_publisher.py]

    A shallow embedding of the single-endpoint publisher and the proofs of
    its observable contract.

    Modelling conventions.
    - A Python [str] is a [string]; each [ascii] stands for one code point
      below 256, classified as CPython classifies it ([str.isspace],
      the [\w] class of [re], case folding under [re.IGNORECASE]).
    - The external collaborators (chat model, CMS reads, CMS write) are a
      [world]: functions from the request sent to the response received.
      Responses are well-formed for their type; transport errors and bodies
      of another shape are outside the model.
    - Effects are threaded through a small monad [M] that records every
      external call in a trace and carries raised exceptions.
    - [nltk.word_tokenize] is a library function kept abstract; library
      calls are taken to return.
    - Of Python's [re], the patterns made of literal characters, [.], [^],
      [$] and [\b] are modelled, under [re.IGNORECASE]; a run that needs
      more ends in [PatternOutsideFragment]. *)

From Stdlib Require Import String Ascii List ZArith NArith Bool Arith Lia.
From Stdlib Require Import Floats.SpecFloat.
Import ListNotations.

Local Open Scope string_scope.
#[local] Set Warnings "-register-all".

(* ================================================================= *)
(** ** Python string primitives *)

Module PyStr.

Definition code (c : ascii) : N := N_of_ascii c.

Definition between (lo hi : N) (c : ascii) : bool :=
  ((lo <=? code c) && (code c <=? hi))%N.

(** [str.isspace] on one character: TAB..CR, FS..US, SPACE, NEL, NBSP. *)
Definition isspace (c : ascii) : bool :=
  between 9 13 c || between 28 32 c || (code c =? 133)%N || (code c =? 160)%N.

(** [s.startswith(p)]. *)
Fixpoint startswith (p s : string) : bool :=
  match p, s with
  | EmptyString, _ => true
  | String _ _, EmptyString => false
  | String a p', String b s' => Ascii.eqb a b && startswith p' s'
  end.

(** [p in s]. *)
Fixpoint contains (p s : string) : bool :=
  startswith p s ||
  match s with
  | EmptyString => false
  | String _ s' => contains p s'
  end.

(** The scan of [s.replace(old, new)] for a non-empty [old]: occurrences
    are taken leftmost first and do not overlap.  [skip] counts the
    characters of the occurrence just replaced that are still to be
    passed over. *)
Fixpoint replace_from (old new : string) (skip : nat) (s : string) : string :=
  match s with
  | EmptyString => EmptyString
  | String c s' =>
      match skip with
      | S k => replace_from old new k s'
      | O =>
          if startswith old s
          then new ++ replace_from old new (String.length old - 1) s'
          else String c (replace_from old new 0 s')
      end
  end.

(** With an empty [old], Python puts [new] before every character and at
    the end. *)
Fixpoint interleave (new s : string) : string :=
  match s with
  | EmptyString => new
  | String c s' => new ++ String c (interleave new s')
  end.

Definition replace (old new s : string) : string :=
  match old with
  | EmptyString => interleave new s
  | String _ _ => replace_from old new 0 s
  end.

Fixpoint lstrip (s : string) : string :=
  match s with
  | EmptyString => EmptyString
  | String c s' => if isspace c then lstrip s' else s
  end.

Fixpoint rstrip (s : string) : string :=
  match s with
  | EmptyString => EmptyString
  | String c s' =>
      match rstrip s' with
      | EmptyString => if isspace c then EmptyString else String c EmptyString
      | r => String c r
      end
  end.

(** [s.strip()]. *)
Definition strip (s : string) : string := lstrip (rstrip s).

(** [s.split()]: maximal runs of non-whitespace characters.  [word] is
    the run being read. *)
Fixpoint split_from (word s : string) : list string :=
  match s with
  | EmptyString =>
      match word with EmptyString => [] | _ => [word] end
  | String c s' =>
      if isspace c
      then match word with
           | EmptyString => split_from EmptyString s'
           | _ => word :: split_from EmptyString s'
           end
      else split_from (word ++ String c EmptyString) s'
  end.

Definition split (s : string) : list string := split_from EmptyString s.

(** [sep.join(words)]. *)
Definition join (sep : string) (words : list string) : string :=
  String.concat sep words.

(** Truth value of a [str]. *)
Definition truthy (s : string) : bool :=
  match s with EmptyString => false | String _ _ => true end.

Definition newline : string := String (ascii_of_nat 10) EmptyString.
Definition dquote : string := String (ascii_of_nat 34) EmptyString.

End PyStr.

(* ================================================================= *)
(** ** Content sanitizer *)

Definition unwanted_phrases : list string :=
  [ "Here is the formatted blog post:";
    "Let me know if you need any further assistance!" ].

(** [clean_content]: the loop over [unwanted_phrases] rebinds [content]. *)
Definition clean_content (content : string) : string :=
  PyStr.strip
    (fold_left (fun content phrase => PyStr.replace phrase EmptyString content)
               unwanted_phrases content).

(* ================================================================= *)
(** ** The fragment of Python's [re] that the link enricher is modelled on

    A pattern is a sequence of single-character atoms and zero-width
    assertions.  Repetition, groups, alternation, character sets and
    escapes other than [\b] are not modelled: [parse] answers [None] on
    them, and so does everything built on it. *)

Module PyRe.

Import PyStr.

(** [\w] for a [str] pattern: [c.isalnum() or c == '_']. *)
Definition isword (c : ascii) : bool :=
  between 48 57 c || between 65 90 c || (code c =? 95)%N || between 97 122 c
  || (code c =? 170)%N || between 178 179 c || (code c =? 181)%N
  || between 185 186 c || between 188 190 c
  || between 192 214 c || between 216 246 c || between 248 255 c.

(** Simple lower-casing, as the matcher applies it under [IGNORECASE]. *)
Definition lower (c : ascii) : ascii :=
  if between 65 90 c || (between 192 222 c && negb (code c =? 215)%N)
  then ascii_of_N (code c + 32)
  else c.

Inductive atom : Type :=
| Lit (c : ascii)      (* a literal character *)
| AnyChar              (* [.]: any character but a newline *)
| Boundary             (* [\b] *)
| AtStart              (* [^] *)
| AtEnd.               (* [$] *)

Definition backslash : ascii := ascii_of_nat 92.

(** Characters that start a construct outside the fragment. *)
Definition unsupported (c : ascii) : bool :=
  existsb (Ascii.eqb c) (list_ascii_of_string "*+?{[|()").

Definition atom_of (c : ascii) : atom :=
  if Ascii.eqb c "."%char then AnyChar
  else if Ascii.eqb c "^"%char then AtStart
  else if Ascii.eqb c "$"%char then AtEnd
  else Lit c.

Fixpoint parse (p : string) : option (list atom) :=
  match p with
  | EmptyString => Some []
  | String c p' =>
      if Ascii.eqb c backslash then
        match p' with
        | String e p'' =>
            if Ascii.eqb e "b"%char
            then option_map (cons Boundary) (parse p'')
            else None
        | EmptyString => None
        end
      else if unsupported c then None
      else option_map (cons (atom_of c)) (parse p')
  end.

Definition isword_opt (o : option ascii) : bool :=
  match o with Some c => isword c | None => false end.

Definition head (s : string) : option ascii :=
  match s with String c _ => Some c | EmptyString => None end.

(** Match [atoms] at one position of the subject: [prev] is the character
    before the position, [s] the subject from the position on.  The
    answer is the number of characters matched. *)
Fixpoint match_here (atoms : list atom) (prev : option ascii) (s : string)
  : option nat :=
  match atoms with
  | [] => Some 0
  | Lit c :: atoms' =>
      match s with
      | String x s' =>
          if Ascii.eqb (lower x) (lower c)
          then option_map S (match_here atoms' (Some x) s')
          else None
      | EmptyString => None
      end
  | AnyChar :: atoms' =>
      match s with
      | String x s' =>
          if Ascii.eqb x (ascii_of_nat 10) then None
          else option_map S (match_here atoms' (Some x) s')
      | EmptyString => None
      end
  | Boundary :: atoms' =>
      if xorb (isword_opt prev) (isword_opt (head s))
      then match_here atoms' prev s
      else None
  | AtStart :: atoms' =>
      match prev with
      | None => match_here atoms' prev s
      | Some _ => None
      end
  | AtEnd :: atoms' =>
      match s with
      | EmptyString => match_here atoms' prev s
      | String x EmptyString =>
          if Ascii.eqb x (ascii_of_nat 10) then match_here atoms' prev s
          else None
      | String _ (String _ _) => None
      end
  end.

(** The scan of [re.sub]: matches are taken leftmost first and do not
    overlap; after an empty match the scan copies one character and goes
    on.  [skip] counts the characters of the last match still to be
    passed over. *)
Fixpoint sub_from (atoms : list atom) (repl : string)
         (prev : option ascii) (skip : nat) (s : string) : string :=
  match s with
  | EmptyString =>
      match skip, match_here atoms prev EmptyString with
      | O, Some _ => repl
      | _, _ => EmptyString
      end
  | String c s' =>
      match skip with
      | S k => sub_from atoms repl (Some c) k s'
      | O =>
          match match_here atoms prev s with
          | Some O => repl ++ String c (sub_from atoms repl (Some c) 0 s')
          | Some (S k) => repl ++ sub_from atoms repl (Some c) k s'
          | None => String c (sub_from atoms repl (Some c) 0 s')
          end
      end
  end.

(** A replacement template is taken literally unless it holds a
    backslash; templates with a backslash are outside the fragment. *)
Definition literal_template (repl : string) : bool :=
  negb (existsb (Ascii.eqb backslash) (list_ascii_of_string repl)).

(** [re.sub(pattern, repl, s, flags=re.IGNORECASE)]. *)
Definition sub_ignorecase (pattern repl s : string) : option string :=
  match parse pattern with
  | Some atoms =>
      if literal_template repl
      then Some (sub_from atoms repl None 0 s)
      else None
  | None => None
  end.

(** The raw string [r"\b"]. *)
Definition raw_b : string := String backslash "b".

End PyRe.

(* ================================================================= *)
(** ** Values exchanged with the collaborators *)

(** What [response.json()] yields. *)
Inductive json : Type :=
| JNull
| JBool (b : bool)
| JInt (n : Z)
| JFloat (f : spec_float)
| JString (s : string)
| JArray (items : list json)
| JObject (members : list (string * json)).

(** Python's truth value of a decoded JSON value. *)
Definition json_truthy (j : json) : bool :=
  match j with
  | JNull => false
  | JBool b => b
  | JInt n => negb (n =? 0)%Z
  | JFloat f => match f with S754_zero _ => false | _ => true end
  | JString s => PyStr.truthy s
  | JArray items => match items with [] => false | _ :: _ => true end
  | JObject members => match members with [] => false | _ :: _ => true end
  end.

(** Truth value of a value that may be [None]. *)
Definition opt_truthy {A : Type} (truth : A -> bool) (o : option A) : bool :=
  match o with Some a => truth a | None => false end.

(** The environment variables; [os.getenv] gives [None] for an unset one. *)
Record config : Type := {
  WP_SITE : option string;
  WP_USERNAME : option string;
  WP_APP_PASSWORD : option string
}.

(** How an f-string renders such a value. *)
Definition fmt (o : option string) : string :=
  match o with Some s => s | None => "None" end.

Definition auth : Type := (option string * option string)%type.

(** One item of the CMS posts listing: [post["title"]["rendered"]] and
    [post["link"]]. *)
Record post : Type := { title_rendered : string; link : string }.

(** The body of the create-page request. *)
Record post_data : Type := {
  pd_title : string;
  pd_content : string;
  pd_status : string;
  pd_meta_yoast_wpseo_metadesc : string;
  pd_tags : list Z
}.

(** The external calls the program makes. *)
Inductive call : Type :=
| OllamaChat (model role content : string)
| GetPosts (url : string) (a : auth)
| GetTags (url : string) (a : auth)
| PostPage (url : string) (data : post_data) (a : auth).

(** The collaborators.  [ollama_chat] gives [response["message"]["content"]],
    or [None] when the response has no ["message"]; the CMS calls give the
    status code and the decoded body ([tags_data] as the list of the ["id"]
    fields of its items). *)
Record world : Type := {
  ollama_chat : string -> string -> string -> option string;
  requests_get_posts : string -> auth -> Z * list post;
  requests_get_tags : string -> auth -> Z * list Z;
  requests_post_page : string -> post_data -> auth -> Z * json
}.

(** What the endpoint returns on success. *)
Record published : Type := { message : string; post_json : json }.

Inductive exn : Type :=
| HTTPException (status_code : Z) (detail : string)
| PatternOutsideFragment.

(* ================================================================= *)
(** ** The effect monad: a trace of calls, and exceptions *)

Inductive outcome (A : Type) : Type :=
| Returned (a : A)
| Raised (e : exn).
Arguments Returned {A} a.
Arguments Raised {A} e.

Definition trace : Type := list call.

Definition M (A : Type) : Type := trace -> outcome A * trace.

Definition ret {A : Type} (a : A) : M A := fun t => (Returned a, t).

Definition raise {A : Type} (e : exn) : M A := fun t => (Raised e, t).

Definition bind {A B : Type} (m : M A) (f : A -> M B) : M B :=
  fun t =>
    match m t with
    | (Returned a, t') => f a t'
    | (Raised e, t') => (Raised e, t')
    end.

(** Make the call [c], which is answered with [r]. *)
Definition perform {A : Type} (c : call) (r : A) : M A :=
  fun t => (Returned r, (t ++ [c])%list).

Notation "x <- m ;; k" := (bind m (fun x => k))
  (at level 61, m at next level, right associativity).

Definition run {A : Type} (m : M A) : outcome A * trace := m [].

(* ================================================================= *)
(** ** The pipeline *)

(** The link index is a Python [dict]: iteration follows insertion order,
    and storing under a key already present keeps its position. *)
Definition link_index : Type := list (string * string).

Fixpoint dict_set (d : link_index) (k v : string) : link_index :=
  match d with
  | [] => [(k, v)]
  | (k', v') :: d' =>
      if String.eqb k' k then (k, v) :: d' else (k', v') :: dict_set d' k v
  end.

Definition anchor (url title : string) : string :=
  "<a href=" ++ PyStr.dquote ++ url ++ PyStr.dquote ++ ">" ++ title ++ "</a>".

(** [insert_internal_links]; [None] when an entry leaves the fragment of
    [re] that is modelled. *)
Fixpoint insert_internal_links (content : string) (links : link_index)
  : option string :=
  match links with
  | [] => Some content
  | (title, url) :: links' =>
      match PyRe.sub_ignorecase (PyRe.raw_b ++ title ++ PyRe.raw_b)
                                (anchor url title) content with
      | Some content' => insert_internal_links content' links'
      | None => None
      end
  end.

Section Pipeline.

Variable word_tokenize : string -> list string.   (* nltk.word_tokenize *)
Variable cfg : config.
Variable w : world.

Definition wp_auth : auth := (WP_USERNAME cfg, WP_APP_PASSWORD cfg).

Definition posts_url : string :=
  fmt (WP_SITE cfg) ++ "/wp-json/wp/v2/posts?per_page=100".
Definition tags_url : string :=
  fmt (WP_SITE cfg) ++ "/wp-json/wp/v2/tags?search=".
Definition pages_url : string :=
  fmt (WP_SITE cfg) ++ "/wp-json/wp/v2/pages".

Definition prompt_of (text : string) : string :=
  PyStr.newline
  ++ "    Format the following blog post:" ++ PyStr.newline
  ++ "    - Add appropriate <p> tags." ++ PyStr.newline
  ++ "    - Detect and format list items." ++ PyStr.newline
  ++ "    - Do not create your own title." ++ PyStr.newline
  ++ PyStr.newline
  ++ "    Blog Content:" ++ PyStr.newline
  ++ "    " ++ text ++ PyStr.newline
  ++ "    ".

Definition process_with_llama3 (text : string) : M (option string) :=
  let prompt := prompt_of text in
  response <- perform (OllamaChat "llama3" "user" prompt)
                      (ollama_chat w "llama3" "user" prompt) ;;
  match response with
  | Some formatted_content =>
      ret (Some (PyStr.replace "</p>" ("</p>" ++ PyStr.newline) formatted_content))
  | None => ret None
  end.

Definition spell_check (text : string) : string :=
  let words := word_tokenize text in
  PyStr.join " " words.

Definition get_internal_links : M link_index :=
  let url := posts_url in
  response <- perform (GetPosts url wp_auth) (requests_get_posts w url wp_auth) ;;
  if (fst response =? 200)%Z
  then
    let posts := snd response in
    ret (fold_left (fun d p => dict_set d (title_rendered p) (link p)) posts [])
  else ret [].

(** The loop of [fetch_tag_ids]; [tag_ids] is the list built so far. *)
Fixpoint fetch_tag_ids_loop (url : string) (tags : list string)
         (tag_ids : list Z) : M (list Z) :=
  match tags with
  | [] => ret tag_ids
  | tag :: tags' =>
      response <- perform (GetTags (url ++ tag) wp_auth)
                          (requests_get_tags w (url ++ tag) wp_auth) ;;
      if (fst response =? 200)%Z
      then
        match snd response with
        | id :: _ => fetch_tag_ids_loop url tags' (tag_ids ++ [id])%list
        | [] => fetch_tag_ids_loop url tags' tag_ids
        end
      else fetch_tag_ids_loop url tags' tag_ids
  end.

Definition fetch_tag_ids (tags : list string) : M (list Z) :=
  let url := tags_url in
  fetch_tag_ids_loop url tags [].

(** [None] stands for Python's [None]. *)
Definition publish_to_wordpress (title content meta_description : string)
           (tag_ids : list Z) : M (option json) :=
  let url := pages_url in
  let data := {| pd_title := title;
                 pd_content := content;
                 pd_status := "publish";
                 pd_meta_yoast_wpseo_metadesc := meta_description;
                 pd_tags := tag_ids |} in
  response <- perform (PostPage url data wp_auth)
                      (requests_post_page w url data wp_auth) ;;
  ret (if (fst response =? 201)%Z then Some (snd response) else None).

Definition meta_description_of (title : string) : string :=
  "Learn more about " ++ title ++ " in this detailed blog post.".

Definition upload_blog (title blog_content : string) : M published :=
  if negb (PyStr.truthy blog_content)
  then raise (HTTPException 400 "No content provided")
  else
    let cleaned_content := clean_content blog_content in
    formatted <- process_with_llama3 cleaned_content ;;
    match formatted with
    | None => raise (HTTPException 500 "LLaMA 3 processing failed")
    | Some formatted_content =>
        if negb (PyStr.truthy formatted_content)
        then raise (HTTPException 500 "LLaMA 3 processing failed")
        else
          let checked_content := spell_check formatted_content in
          internal_links <- get_internal_links ;;
          match insert_internal_links formatted_content internal_links with
          | None => raise PatternOutsideFragment
          | Some final_content =>
              let tags := PyStr.split title in
              tag_ids <- fetch_tag_ids tags ;;
              let meta_description := meta_description_of title in
              result <- publish_to_wordpress title final_content
                                             meta_description tag_ids ;;
              if opt_truthy json_truthy result
              then
                match result with
                | Some j => ret {| message := "Blog post published successfully";
                                   post_json := j |}
                | None => raise (HTTPException 500 "Failed to publish post")
                end
              else raise (HTTPException 500 "Failed to publish post")
          end
    end.

End Pipeline.

(** The status code of the HTTP response the framework sends: 200 for a
    returned value, the exception's own code for an [HTTPException].  A run
    that left the modelled fragment of [re] has no answer here. *)
Definition response_status {A : Type} (o : outcome A) : option Z :=
  match o with
  | Returned _ => Some 200%Z
  | Raised (HTTPException status_code _) => Some status_code
  | Raised PatternOutsideFragment => None
  end.

(* ================================================================= *)
(** ** What each effectful step returns, read off the world

    These are the values the steps are proved to return
    ([process_with_llama3_run] and the lemmas after it). *)

Section Readings.

Variable cfg : config.
Variable w : world.

Definition chat_call (text : string) : call :=
  OllamaChat "llama3" "user" (prompt_of text).

Definition rewritten (text : string) : option string :=
  option_map (PyStr.replace "</p>" ("</p>" ++ PyStr.newline))
             (ollama_chat w "llama3" "user" (prompt_of text)).

Definition posts_call : call := GetPosts (posts_url cfg) (wp_auth cfg).

Definition posts_response : Z * list post :=
  requests_get_posts w (posts_url cfg) (wp_auth cfg).

Definition fetched_links : link_index :=
  if (fst posts_response =? 200)%Z
  then fold_left (fun d p => dict_set d (title_rendered p) (link p))
                 (snd posts_response) []
  else [].

Definition search_call (tag : string) : call :=
  GetTags (tags_url cfg ++ tag) (wp_auth cfg).

Definition search_response (tag : string) : Z * list Z :=
  requests_get_tags w (tags_url cfg ++ tag) (wp_auth cfg).

(** The results a tag search returns: the items of a 200 response; any
    other response carries none. *)
Definition search_results (tag : string) : list Z :=
  if (fst (search_response tag) =? 200)%Z then snd (search_response tag) else [].

(** The first result's ID, if the search returned any result. *)
Definition first_result_id (tag : string) : list Z :=
  match search_results tag with
  | id :: _ => [id]
  | [] => []
  end.

Definition page_of (title content : string) (tag_ids : list Z) : post_data :=
  {| pd_title := title;
     pd_content := content;
     pd_status := "publish";
     pd_meta_yoast_wpseo_metadesc := meta_description_of title;
     pd_tags := tag_ids |}.

Definition publish_call (data : post_data) : call :=
  PostPage (pages_url cfg) data (wp_auth cfg).

Definition publish_response (data : post_data) : Z * json :=
  requests_post_page w (pages_url cfg) data (wp_auth cfg).

(** The calls made up to the publish step, and the page sent there. *)
Definition calls_before_publish (title text : string) : trace :=
  ([chat_call text; posts_call] ++ map search_call (PyStr.split title))%list.

Definition page_sent (title final_content : string) : post_data :=
  page_of title final_content (flat_map first_result_id (PyStr.split title)).

(** What the endpoint does once the publish step is reached. *)
Definition respond (data : post_data) : outcome published :=
  let response := publish_response data in
  if ((fst response =? 201)%Z && json_truthy (snd response))%bool
  then Returned {| message := "Blog post published successfully";
                   post_json := snd response |}
  else Raised (HTTPException 500 "Failed to publish post").

End Readings.

(* ================================================================= *)
(** ** Sample collaborators, for the concrete runs *)

Definition sample_cfg : config :=
  {| WP_SITE := Some "https://blog.example";
     WP_USERNAME := Some "editor";
     WP_APP_PASSWORD := Some "app-password" |}.

(** A world that answers every chat with [chat], every posts read with
    [posts], a tag search by [tags] of the searched URL, and every
    create-page call with [page]. *)
Definition sample_world (chat : option string) (posts : Z * list post)
           (tags : string -> Z * list Z) (page : Z * json) : world :=
  {| ollama_chat := fun _ _ _ => chat;
     requests_get_posts := fun _ _ => posts;
     requests_get_tags := fun url _ => tags url;
     requests_post_page := fun _ _ _ => page |}.

(** Tag searches in which only "Go" is known, as tag 5. *)
Definition only_go (url : string) : Z * list Z :=
  if String.eqb url (tags_url sample_cfg ++ "Go") then (200%Z, [5%Z]) else (200%Z, []).

Definition no_tags (url : string) : Z * list Z := (200%Z, []).

Definition created : json := JObject [("id", JInt 42)].

(* ================================================================= *)
(** ** Link enrichment in the words of the specification

    Section 4.4 speaks of whole-word, case-insensitive occurrences of the
    literal title text.  This is that notion, written without regular
    expressions, to compare [insert_internal_links] with. *)

Module LinkSpec.

Import PyStr PyRe.

(** The same character, up to case. *)
Definition same_letter (x c : ascii) : bool := Ascii.eqb (lower x) (lower c).

(** The text starts with [title], up to case; the answer is what follows
    the occurrence. *)
Fixpoint after_occurrence (title s : string) : option string :=
  match title, s with
  | EmptyString, _ => Some s
  | String _ _, EmptyString => None
  | String c title', String x s' =>
      if same_letter x c then after_occurrence title' s' else None
  end.

(** A whole-word occurrence starts here: the text goes on with [title], up
    to case, and no word character stands next to the occurrence, neither
    before it ([prev]) nor after it. *)
Definition whole_word_here (title : string) (prev : option ascii) (s : string)
  : bool :=
  match after_occurrence title s with
  | Some rest => negb (isword_opt prev) && negb (isword_opt (head rest))
  | None => false
  end.

Fixpoint take (n : nat) (s : string) : string :=
  match n, s with
  | S k, String c s' => String c (take k s')
  | _, _ => EmptyString
  end.

(** Go through the text from left to right and put [emit occurrence] in
    the place of each whole-word occurrence of [title]; occurrences do not
    overlap.  [skip] counts the characters of the last occurrence still to
    be passed over. *)
Fixpoint wrap_from (emit : string -> string) (title : string)
         (prev : option ascii) (skip : nat) (s : string) : string :=
  match s with
  | EmptyString =>
      match skip with
      | O => if whole_word_here title prev EmptyString
             then emit EmptyString else EmptyString
      | S _ => EmptyString
      end
  | String c s' =>
      match skip with
      | S k => wrap_from emit title (Some c) k s'
      | O =>
          if whole_word_here title prev s
          then emit (take (String.length title) s)
               ++ match String.length title with
                  | O => String c (wrap_from emit title (Some c) 0 s')
                  | S k => wrap_from emit title (Some c) k s'
                  end
          else String c (wrap_from emit title (Some c) 0 s')
      end
  end.

(** The specification's reading: each occurrence is wrapped in an anchor. *)
Definition wrap_occurrences (title url content : string) : string :=
  wrap_from (fun occurrence => anchor url occurrence) title None 0 content.

(** The same scan, with the title as the index spells it as anchor text. *)
Definition link_occurrences (title url content : string) : string :=
  wrap_from (fun _ => anchor url title) title None 0 content.

(** Characters that stand for themselves in a pattern. *)
Definition literal_char (c : ascii) : bool :=
  negb (Ascii.eqb c backslash) && negb (unsupported c)
  && negb (Ascii.eqb c "."%char) && negb (Ascii.eqb c "^"%char)
  && negb (Ascii.eqb c "$"%char).

Fixpoint last_char (c : ascii) (s : string) : ascii :=
  match s with
  | EmptyString => c
  | String x s' => last_char x s'
  end.

(** A title that is not empty, is made of such characters, and starts and
    ends with a word character. *)
Definition plain_title (title : string) : bool :=
  match title with
  | EmptyString => false
  | String c title' =>
      forallb literal_char (list_ascii_of_string title)
      && isword c && isword (last_char c title')
  end.

(** The atoms of a title made of such characters. *)
Definition lits (title : string) : list atom :=
  map Lit (list_ascii_of_string title).

Definition plain_entry (entry : string * string) : bool :=
  plain_title (fst entry) && literal_template (snd entry).

End LinkSpec.

(* ================================================================= *)
(** ** Statements of the specification that the code does not meet *)


(** Section 4.4: link enrichment wraps each whole-word, case-insensitive
    occurrence of the literal title text, entry after entry. *)
Definition link_enrichment_wraps_occurrences : Prop :=
  forall (content : string) (links : link_index),
    insert_internal_links content links
    = Some (fold_left (fun content entry =>
                         LinkSpec.wrap_occurrences (fst entry) (snd entry) content)
                      links content).

(** Section 8: the sanitizer is idempotent. *)
Definition clean_content_idempotent : Prop :=
  forall content : string,
    clean_content (clean_content content) = clean_content content.

(** A string made of whitespace only. *)
Definition all_space (s : string) : bool :=
  forallb PyStr.isspace (list_ascii_of_string s).

(** A piece of boilerplate: a denylisted phrase, or whitespace. *)
Definition boilerplate_piece (piece : string) : bool :=
  existsb (String.eqb piece) unwanted_phrases || all_space piece.

(** The pieces of a text, put together. *)
Definition assemble (pieces : list string) : string :=
  fold_right append EmptyString pieces.

(** The character [h] does not occur in [t]. *)
Definition free_of (h : ascii) (t : string) : bool :=
  forallb (fun x => negb (Ascii.eqb h x)) (list_ascii_of_string t).

(* ================================================================= *)
(** ** Notions for the further properties *)

(** The first, and the last, character of a text is whitespace. *)
Definition starts_with_space (s : string) : bool :=
  match s with
  | EmptyString => false
  | String c _ => PyStr.isspace c
  end.

Definition ends_with_space (s : string) : bool :=
  match s with
  | EmptyString => false
  | String c s' => PyStr.isspace (LinkSpec.last_char c s')
  end.

(** Wherever [p] occurs in [s], [q] comes right after it. *)
Fixpoint always_followed (p q s : string) : bool :=
  (negb (PyStr.startswith p s) || PyStr.startswith (p ++ q) s)
  && match s with
     | EmptyString => true
     | String _ s' => always_followed p q s'
     end.

(** [d.get(k)]. *)
Fixpoint dict_get (d : link_index) (k : string) : option string :=
  match d with
  | [] => None
  | (k', v) :: d' => if String.eqb k' k then Some v else dict_get d' k
  end.

(** The titles of a listing, each once, in the order of first appearance. *)
Definition add_once (seen : list string) (k : string) : list string :=
  if existsb (String.eqb k) seen then seen else (seen ++ [k])%list.

Definition first_occurrences (titles : list string) : list string :=
  fold_left add_once titles [].

(** The link of the last post of a listing that has this title. *)
Definition last_link (posts : list post) (title : string) : option string :=
  fold_left (fun found p =>
               if String.eqb (title_rendered p) title then Some (link p) else found)
            posts None.

(** Link enrichment for every title made of literal characters, with the
    word boundaries as the pattern has them. *)
Module LinkEdges.

Import PyStr PyRe LinkSpec.

(** A title that is not empty and is made of characters that stand for
    themselves in a pattern. *)
Definition literal_title (title : string) : bool :=
  match title with
  | EmptyString => false
  | String _ _ => forallb literal_char (list_ascii_of_string title)
  end.

Definition literal_entry (entry : string * string) : bool :=
  literal_title (fst entry) && literal_template (snd entry).

(** An occurrence of [title], up to case, starts here and has a word
    boundary at each end: of the character before it and its first
    character exactly one is a word character, and so for its last
    character and the character after it. *)
Definition edge_here (title : string) (prev : option ascii) (s : string) : bool :=
  match title with
  | EmptyString => false
  | String c title' =>
      match after_occurrence title s with
      | Some rest =>
          xorb (isword_opt prev) (isword c)
          && xorb (isword (last_char c title')) (isword_opt (head rest))
      | None => false
      end
  end.

(** Go through the text from left to right and put [repl] in the place of
    the [width] characters at each position that [here] accepts; the places
    do not overlap. *)
Fixpoint replace_where (here : option ascii -> string -> bool) (width : nat)
         (repl : string) (prev : option ascii) (skip : nat) (s : string) : string :=
  match s with
  | EmptyString => EmptyString
  | String c s' =>
      match skip with
      | S k => replace_where here width repl (Some c) k s'
      | O =>
          if here prev s
          then repl ++ replace_where here width repl (Some c) (width - 1) s'
          else String c (replace_where here width repl (Some c) 0 s')
      end
  end.

Definition link_at_edges (title url content : string) : string :=
  replace_where (edge_here title) (String.length title) (anchor url title)
                None 0 content.

(** [title] occurs somewhere in [s], up to case. *)
Fixpoint occurs_ci (title s : string) : bool :=
  match after_occurrence title s with Some _ => true | None => false end
  || match s with
     | EmptyString => false
     | String _ s' => occurs_ci title s'
     end.

End LinkEdges.

(** A word as [str.split] yields them: not empty, no whitespace in it. *)
Definition is_word (s : string) : bool :=
  PyStr.truthy s
  && forallb (fun c => negb (PyStr.isspace c)) (list_ascii_of_string s).


(** A denylisted phrase; and a piece of text in which no denylisted
    phrase can start (neither "H" nor "L" occurs in it). *)
Definition denylisted (piece : string) : bool :=
  existsb (String.eqb piece) unwanted_phrases.

Definition inert_piece (piece : string) : bool :=
  free_of "H" piece && free_of "L" piece.

(* ================================================================= *)
(** * Proofs *)

(** ** Running the effectful steps *)

Section Runs.

Variable word_tokenize : string -> list string.
Variable cfg : config.
Variable w : world.

Lemma bind_perform {A B : Type} (c : call) (r : A) (k : A -> M B) (t : trace) :
  bind (perform c r) k t = k r (t ++ [c])%list.
Proof. reflexivity. Qed.

Lemma bind_returned {A B : Type} (m : M A) (k : A -> M B) (t t' : trace) (a : A) :
  m t = (Returned a, t') -> bind m k t = k a t'.
Proof. intros E. unfold bind. rewrite E. reflexivity. Qed.

Lemma process_with_llama3_run (text : string) (t : trace) :
  process_with_llama3 w text t
  = (Returned (rewritten w text), (t ++ [chat_call text])%list).
Proof.
  unfold process_with_llama3, rewritten, chat_call.
  rewrite bind_perform.
  destruct (ollama_chat w "llama3" "user" (prompt_of text)); reflexivity.
Qed.

Lemma get_internal_links_run (t : trace) :
  get_internal_links cfg w t
  = (Returned (fetched_links cfg w), (t ++ [posts_call cfg])%list).
Proof.
  unfold get_internal_links, fetched_links, posts_call, posts_response.
  rewrite bind_perform.
  destruct (fst (requests_get_posts w (posts_url cfg) (wp_auth cfg)) =? 200)%Z;
    reflexivity.
Qed.

Lemma fetch_tag_ids_loop_run (tags : list string) :
  forall (tag_ids : list Z) (t : trace),
    fetch_tag_ids_loop cfg w (tags_url cfg) tags tag_ids t
    = (Returned (tag_ids ++ flat_map (first_result_id cfg w) tags)%list,
       (t ++ map (search_call cfg) tags)%list).
Proof.
  induction tags as [|tag tags IH]; intros tag_ids t.
  - cbn. now rewrite !app_nil_r.
  - cbn [fetch_tag_ids_loop flat_map map].
    rewrite bind_perform.
    unfold first_result_id at 1, search_results, search_response.
    destruct (fst (requests_get_tags w (tags_url cfg ++ tag) (wp_auth cfg)) =? 200)%Z.
    + destruct (snd (requests_get_tags w (tags_url cfg ++ tag) (wp_auth cfg)))
        as [|id ids]; rewrite IH; unfold search_call;
        now rewrite <- ?app_assoc.
    + rewrite IH. unfold search_call. now rewrite <- ?app_assoc.
Qed.

Lemma fetch_tag_ids_run (tags : list string) (t : trace) :
  fetch_tag_ids cfg w tags t
  = (Returned (flat_map (first_result_id cfg w) tags),
     (t ++ map (search_call cfg) tags)%list).
Proof. unfold fetch_tag_ids. now rewrite fetch_tag_ids_loop_run. Qed.

Lemma publish_to_wordpress_run (title content : string) (tag_ids : list Z)
      (t : trace) :
  let data := page_of title content tag_ids in
  publish_to_wordpress cfg w title content (meta_description_of title) tag_ids t
  = (Returned (if (fst (publish_response cfg w data) =? 201)%Z
               then Some (snd (publish_response cfg w data)) else None),
     (t ++ [publish_call cfg data])%list).
Proof. reflexivity. Qed.

(** The whole endpoint, step by step. *)
Lemma upload_blog_run (title blog_content : string) :
  run (upload_blog word_tokenize cfg w title blog_content)
  = match blog_content with
    | EmptyString => (Raised (HTTPException 400 "No content provided"), [])
    | String _ _ =>
        let text := clean_content blog_content in
        match rewritten w text with
        | None | Some EmptyString =>
            (Raised (HTTPException 500 "LLaMA 3 processing failed"),
             [chat_call text])
        | Some formatted_content =>
            match insert_internal_links formatted_content (fetched_links cfg w) with
            | None => (Raised PatternOutsideFragment, [chat_call text; posts_call cfg])
            | Some final_content =>
                (respond cfg w (page_sent cfg w title final_content),
                 (calls_before_publish cfg title text
                    ++ [publish_call cfg (page_sent cfg w title final_content)])%list)
            end
        end
    end.
Proof.
  unfold run, upload_blog.
  destruct blog_content as [|c0 rest]; [reflexivity|].
  cbn [PyStr.truthy negb].
  rewrite (bind_returned _ _ _ _ _ (process_with_llama3_run _ _)).
  destruct (rewritten w (clean_content (String c0 rest))) as [[|f0 frest]|];
    [reflexivity| |reflexivity].
  cbn [PyStr.truthy negb].
  rewrite (bind_returned _ _ _ _ _ (get_internal_links_run _)).
  destruct (insert_internal_links (String f0 frest) (fetched_links cfg w))
    as [final_content|]; [|reflexivity].
  rewrite (bind_returned _ _ _ _ _ (fetch_tag_ids_run _ _)).
  rewrite (bind_returned _ _ _ _ _ (publish_to_wordpress_run _ _ _ _)).
  unfold respond, page_sent, calls_before_publish.
  cbn [app].
  destruct (fst (publish_response cfg w _) =? 201)%Z; cbn [opt_truthy andb].
  - destruct (json_truthy (snd (publish_response cfg w _))); reflexivity.
  - reflexivity.
Qed.

End Runs.

(** ** The endpoint *)

Section Endpoint.

Variable word_tokenize : string -> list string.
Variable cfg : config.
Variable w : world.

Lemma publish_call_last (c : call) (title text : string) (d : post_data) :
  In c (calls_before_publish cfg title text ++ [publish_call cfg d])%list ->
  (exists url data a, c = PostPage url data a) ->
  c = publish_call cfg d.
Proof.
  intros Hin (url & data & a & ->).
  apply in_app_or in Hin as [Hin|[Hin|[]]]; [|now symmetry].
  unfold calls_before_publish in Hin.
  cbn [app] in Hin.
  destruct Hin as [Hin|[Hin|Hin]]; try discriminate.
  apply in_map_iff in Hin as (tag & Htag & _). discriminate.
Qed.

(** A run that makes a create-page call has passed every earlier step,
    and that call is its last one. *)
Lemma upload_blog_reaches_publish (title blog_content url : string)
      (data : post_data) (a : auth) :
  In (PostPage url data a)
     (snd (run (upload_blog word_tokenize cfg w title blog_content))) ->
  exists formatted_content final_content,
    blog_content <> EmptyString
    /\ rewritten w (clean_content blog_content) = Some formatted_content
    /\ formatted_content <> EmptyString
    /\ insert_internal_links formatted_content (fetched_links cfg w)
       = Some final_content
    /\ PostPage url data a = publish_call cfg (page_sent cfg w title final_content)
    /\ run (upload_blog word_tokenize cfg w title blog_content)
       = (respond cfg w (page_sent cfg w title final_content),
          (calls_before_publish cfg title (clean_content blog_content)
             ++ [publish_call cfg (page_sent cfg w title final_content)])%list).
Proof.
  rewrite upload_blog_run.
  destruct blog_content as [|c0 rest]; [intros []|].
  cbv zeta.
  destruct (rewritten w (clean_content (String c0 rest))) as [[|f0 frest]|] eqn:Hrw;
    cbn [snd]; try (intros [Hin|[]]; discriminate).
  destruct (insert_internal_links (String f0 frest) (fetched_links cfg w))
    as [final_content|] eqn:Hlinks; cbn [snd].
  - intros Hin. exists (String f0 frest), final_content.
    repeat split; try congruence; try discriminate.
    eapply publish_call_last; eauto.
  - intros [Hin|[Hin|[]]]; discriminate.
Qed.

End Endpoint.

(** Find a call in the trace of a concrete run. *)
Ltac find_call := vm_compute; repeat (first [left; reflexivity | right]).

(** ** Failure exits of the endpoint *)

(** C6: with an empty [blog_content] the endpoint raises the 400 error
    "No content provided" and its trace of external calls is empty: no
    chat call, no CMS read, no CMS write. *)
Theorem upload_blog_empty_content
        (word_tokenize : string -> list string) (cfg : config) (w : world)
        (title : string) :
  run (upload_blog word_tokenize cfg w title EmptyString)
  = (Raised (HTTPException 400 "No content provided"), [])
  /\ response_status
       (fst (run (upload_blog word_tokenize cfg w title EmptyString))) = Some 400%Z.
Proof. split; reflexivity. Qed.

(** C7: when the rewrite step returns nothing usable ([None] or the empty
    string) the endpoint raises the 500 error "LLaMA 3 processing failed";
    the chat call is the only external call of the run, so no links are
    fetched, no tag is searched and nothing is published. *)
Theorem upload_blog_rewrite_failed
        (word_tokenize : string -> list string) (cfg : config) (w : world)
        (title blog_content : string) (formatted : option string) :
  blog_content <> EmptyString ->
  fst (run (process_with_llama3 w (clean_content blog_content)))
  = Returned formatted ->
  opt_truthy PyStr.truthy formatted = false ->
  run (upload_blog word_tokenize cfg w title blog_content)
  = (Raised (HTTPException 500 "LLaMA 3 processing failed"),
     [OllamaChat "llama3" "user" (prompt_of (clean_content blog_content))])
  /\ forall c,
      In c (snd (run (upload_blog word_tokenize cfg w title blog_content))) ->
      (forall url a, c <> GetPosts url a)
      /\ (forall url a, c <> GetTags url a)
      /\ (forall url data a, c <> PostPage url data a).
Proof.
  intros Hne Hrun Hfalsy.
  unfold run in Hrun. rewrite process_with_llama3_run in Hrun.
  cbn [fst] in Hrun. injection Hrun as Hrw.
  assert (E : run (upload_blog word_tokenize cfg w title blog_content)
              = (Raised (HTTPException 500 "LLaMA 3 processing failed"),
                 [chat_call (clean_content blog_content)])).
  { rewrite upload_blog_run.
    destruct blog_content as [|c0 rest]; [congruence|].
    cbv zeta. rewrite Hrw.
    destruct formatted as [[|f0 frest]|]; [reflexivity|discriminate|reflexivity]. }
  split; [exact E|].
  rewrite E. cbn [snd].
  intros c [<-|[]]. unfold chat_call.
  repeat split; intros; discriminate.
Qed.

Lemma upload_blog_rewrite_failed_witness :
  let w := sample_world None (200%Z, []) no_tags (201%Z, created) in
  run (upload_blog PyStr.split sample_cfg w "Title" "Some text")
  = (Raised (HTTPException 500 "LLaMA 3 processing failed"),
     [OllamaChat "llama3" "user" (prompt_of (clean_content "Some text"))]).
Proof.
  intro w.
  apply (upload_blog_rewrite_failed PyStr.split sample_cfg w "Title" "Some text" None).
  - discriminate.
  - reflexivity.
  - reflexivity.
Defined.

(** ** The publish step *)






(** ** Tag resolution *)

(** C8: [fetch_tag_ids] searches the words in order and returns, for each
    word whose search returned results, the first result's ID, skipping the
    others; the endpoint applies it to the whitespace-split title.  With
    "Go" known as tag 5 and "Rust" unknown, "Go Rust" gives [[5]]; a word
    that occurs twice is resolved twice. *)
Theorem fetch_tag_ids_first_results (cfg : config) (w : world) :
  (forall tags,
      run (fetch_tag_ids cfg w tags)
      = (Returned (flat_map (first_result_id cfg w) tags),
         map (search_call cfg) tags))
  /\ (forall word_tokenize title blog_content url data a,
         In (PostPage url data a)
            (snd (run (upload_blog word_tokenize cfg w title blog_content))) ->
         pd_tags data = flat_map (first_result_id cfg w) (PyStr.split title))
  /\ (forall ids,
         search_response cfg w "Go" = (200%Z, 5%Z :: ids) ->
         search_results cfg w "Rust" = [] ->
         fst (run (fetch_tag_ids cfg w (PyStr.split "Go Rust"))) = Returned [5%Z])
  /\ (forall ids,
         search_response cfg w "Go" = (200%Z, 5%Z :: ids) ->
         fst (run (fetch_tag_ids cfg w (PyStr.split "Go Go")))
         = Returned [5%Z; 5%Z]).
Proof.
  assert (Hgo : forall ids,
             search_response cfg w "Go" = (200%Z, 5%Z :: ids) ->
             first_result_id cfg w "Go" = [5%Z]).
  { intros ids E. unfold first_result_id, search_results. now rewrite E. }
  repeat split.
  - intros tags. unfold run. now rewrite fetch_tag_ids_run.
  - intros word_tokenize title blog_content url data a Hin.
    apply upload_blog_reaches_publish in Hin
      as (formatted_content & final_content & _ & _ & _ & _ & Hcall & _).
    injection Hcall as -> -> ->. reflexivity.
  - intros ids Ego Erust. unfold run. rewrite fetch_tag_ids_run.
    change (PyStr.split "Go Rust") with ["Go"; "Rust"].
    cbn [fst flat_map]. unfold first_result_id at 2.
    now rewrite (Hgo ids Ego), Erust.
  - intros ids Ego. unfold run. rewrite fetch_tag_ids_run.
    change (PyStr.split "Go Go") with ["Go"; "Go"].
    cbn [fst flat_map]. now rewrite (Hgo ids Ego).
Qed.

Lemma fetch_tag_ids_first_results_witness :
  let w := sample_world None (200%Z, []) only_go (201%Z, created) in
  fst (run (fetch_tag_ids sample_cfg w (PyStr.split "Go Rust"))) = Returned [5%Z]
  /\ fst (run (fetch_tag_ids sample_cfg w (PyStr.split "Go Go")))
     = Returned [5%Z; 5%Z].
Proof.
  intro w.
  destruct (fetch_tag_ids_first_results sample_cfg w) as (_ & _ & Hrust & Hdup).
  split.
  - apply (Hrust []); reflexivity.
  - apply (Hdup []); reflexivity.
Defined.

(** ** Best-effort enrichment *)



(** ** The normalizer's output is not what is published *)

Lemma contains_char_app (c : ascii) (s1 s2 : string) :
  PyStr.contains (String c EmptyString) (s1 ++ s2)
  = PyStr.contains (String c EmptyString) s1
    || PyStr.contains (String c EmptyString) s2.
Proof.
  induction s1 as [|x s1 IH]; cbn [append PyStr.contains].
  - destruct s2; reflexivity.
  - rewrite IH. cbn [PyStr.startswith].
    destruct (Ascii.eqb c x); cbn; [reflexivity|].
    destruct s1; reflexivity.
Qed.

Lemma join_keeps_out (c : ascii) (sep : string) (words : list string) :
  PyStr.contains (String c EmptyString) sep = false ->
  forallb (fun token => negb (PyStr.contains (String c EmptyString) token)) words = true ->
  PyStr.contains (String c EmptyString) (PyStr.join sep words) = false.
Proof.
  intros Hsep. unfold PyStr.join.
  induction words as [|x words IH]; intros Hall; [reflexivity|].
  cbn [forallb] in Hall. apply andb_true_iff in Hall as [Hx Hall].
  apply negb_true_iff in Hx.
  cbn [String.concat]. destruct words as [|y words]; [exact Hx|].
  rewrite !contains_char_app, Hx, Hsep. now rewrite (IH Hall).
Qed.

(** The tokenizer has no influence on what the endpoint does. *)
Lemma upload_blog_ignores_tokenizer
      (tokenize1 tokenize2 : string -> list string) (cfg : config) (w : world)
      (title blog_content : string) :
  run (upload_blog tokenize1 cfg w title blog_content)
  = run (upload_blog tokenize2 cfg w title blog_content).
Proof. now rewrite !upload_blog_run. Qed.

(** C1 fails on the code: [upload_blog] hands [formatted_content], not
    [checked_content], to [insert_internal_links].  When the rewrite gives
    "<p>Hello   world</p>", the page sent to the CMS carries that text with
    its runs of spaces and the newline added after the closing tag, which no
    tokenizer whose tokens are free of newlines can produce. *)
Theorem upload_blog_publishes_unnormalized_text
        (word_tokenize : string -> list string) :
  let w := sample_world (Some "<p>Hello   world</p>") (200%Z, []) no_tags
                        (201%Z, created) in
  let formatted_content := "<p>Hello   world</p>" ++ PyStr.newline in
  forallb (fun token => negb (PyStr.contains PyStr.newline token))
          (word_tokenize formatted_content) = true ->
  fst (run (process_with_llama3 w (clean_content "Some text")))
  = Returned (Some formatted_content)
  /\ exists data,
      In (PostPage (pages_url sample_cfg) data (wp_auth sample_cfg))
         (snd (run (upload_blog word_tokenize sample_cfg w "Title" "Some text")))
      /\ pd_content data = formatted_content
      /\ pd_content data <> spell_check word_tokenize formatted_content.
Proof.
  intros w formatted_content Htokens.
  split; [reflexivity|].
  exists (page_sent sample_cfg w "Title" formatted_content).
  split; [|split].
  - rewrite (upload_blog_ignores_tokenizer word_tokenize PyStr.split).
    find_call.
  - reflexivity.
  - cbn [page_sent page_of pd_content]. intros E.
    assert (H : PyStr.contains PyStr.newline formatted_content = true)
      by reflexivity.
    rewrite E in H. unfold spell_check in H.
    unfold PyStr.newline in H, Htokens.
    rewrite join_keeps_out in H; [discriminate|reflexivity|exact Htokens].
Qed.

Lemma upload_blog_publishes_unnormalized_text_witness :
  let w := sample_world (Some "<p>Hello   world</p>") (200%Z, []) no_tags
                        (201%Z, created) in
  exists data,
    In (PostPage (pages_url sample_cfg) data (wp_auth sample_cfg))
       (snd (run (upload_blog PyStr.split sample_cfg w "Title" "Some text")))
    /\ pd_content data = "<p>Hello   world</p>" ++ PyStr.newline
    /\ pd_content data
       <> spell_check PyStr.split ("<p>Hello   world</p>" ++ PyStr.newline).
Proof.
  intro w.
  apply (proj2 (upload_blog_publishes_unnormalized_text PyStr.split eq_refl)).
Defined.

(** ** The sanitizer *)

Module Sanitizer.

Import PyStr.

Lemma replace_from_absent (old new s : string) :
  contains old s = false -> replace_from old new 0 s = s.
Proof.
  induction s as [|c s IH]; [reflexivity|].
  cbn [contains replace_from]. intros H.
  apply orb_false_iff in H as [Hhere Hlater].
  rewrite Hhere. now rewrite (IH Hlater).
Qed.

Lemma replace_absent (old new s : string) :
  contains old s = false -> replace old new s = s.
Proof.
  destruct old as [|h old].
  - destruct s; discriminate.
  - apply replace_from_absent.
Qed.

Lemma lstrip_idempotent (s : string) : lstrip (lstrip s) = lstrip s.
Proof.
  induction s as [|c s IH]; [reflexivity|].
  cbn [lstrip]. destruct (isspace c) eqn:E; [exact IH|].
  cbn [lstrip]. now rewrite E.
Qed.

Lemma rstrip_idempotent (s : string) : rstrip (rstrip s) = rstrip s.
Proof.
  induction s as [|c s IH]; [reflexivity|].
  cbn [rstrip]. destruct (rstrip s) as [|x r] eqn:E.
  - destruct (isspace c) eqn:Ec; [reflexivity|].
    cbn [rstrip]. now rewrite Ec.
  - cbn [rstrip]. cbn [rstrip] in IH. now rewrite IH.
Qed.

Lemma rstrip_lstrip (s : string) : rstrip (lstrip s) = lstrip (rstrip s).
Proof.
  induction s as [|c s IH]; [reflexivity|].
  cbn [lstrip rstrip]. destruct (isspace c) eqn:Ec.
  - rewrite IH. destruct (rstrip s) as [|x r]; [reflexivity|].
    cbn [lstrip]. now rewrite Ec.
  - cbn [rstrip]. destruct (rstrip s) as [|x r]; cbn [lstrip]; now rewrite Ec.
Qed.

Lemma strip_idempotent (s : string) : strip (strip s) = strip s.
Proof.
  unfold strip.
  now rewrite rstrip_lstrip, rstrip_idempotent, lstrip_idempotent.
Qed.

End Sanitizer.

(** C4, as the specification states it, fails: removing the phrase inside
    "Here is the for|Here is the formatted blog post:|matted blog post:"
    puts its two halves together into a new occurrence, which only a second
    pass removes. *)
Lemma clean_content_idempotent_fails : ~ clean_content_idempotent.
Proof.
  intros H.
  specialize
    (H "Here is the forHere is the formatted blog post:matted blog post:").
  vm_compute in H. discriminate.
Qed.

(** C4, amended: the sanitizer is idempotent on every input whose sanitized
    text holds no denylisted phrase. *)
Theorem clean_content_idempotent_when_clean (content : string) :
  (forall phrase,
      In phrase unwanted_phrases ->
      PyStr.contains phrase (clean_content content) = false) ->
  clean_content (clean_content content) = clean_content content.
Proof.
  intros Habsent.
  unfold clean_content at 1. cbn [fold_left unwanted_phrases].
  rewrite (Sanitizer.replace_absent _ _ (clean_content content))
    by (apply Habsent; cbn; auto).
  rewrite Sanitizer.replace_absent by (apply Habsent; cbn; auto).
  unfold clean_content. apply Sanitizer.strip_idempotent.
Qed.

Lemma clean_content_idempotent_when_clean_witness :
  clean_content (clean_content "  Here is the formatted blog post: Hi!  ")
  = clean_content "  Here is the formatted blog post: Hi!  ".
Proof.
  apply clean_content_idempotent_when_clean.
  intros phrase [<-|[<-|[]]]; vm_compute; reflexivity.
Defined.

Module SanitizerLength.

Import PyStr.

Lemma replace_from_length (old : string) (s : string) :
  forall skip, String.length (replace_from old EmptyString skip s) <= String.length s.
Proof.
  induction s as [|c s IH]; intros skip; [reflexivity|].
  cbn [replace_from]. destruct skip as [|k].
  - destruct (startswith old (String c s)); cbn [append String.length].
    + specialize (IH (String.length old - 1)). lia.
    + specialize (IH 0). lia.
  - cbn [String.length]. specialize (IH k). lia.
Qed.

Lemma replace_from_shrinks (old : string) (s : string) :
  old <> EmptyString ->
  contains old s = true ->
  String.length (replace_from old EmptyString 0 s) < String.length s.
Proof.
  intros Hold.
  induction s as [|c s IH].
  - destruct old; [congruence|discriminate].
  - cbn [contains replace_from]. intros H.
    destruct (startswith old (String c s)) eqn:Hhere; cbn [append String.length].
    + pose proof (replace_from_length old s (String.length old - 1)). lia.
    + cbn [orb] in H. specialize (IH H). lia.
Qed.

Lemma lstrip_length (s : string) : String.length (lstrip s) <= String.length s.
Proof.
  induction s as [|c s IH]; [reflexivity|].
  cbn [lstrip]. destruct (isspace c); cbn [String.length]; lia.
Qed.

Lemma rstrip_length (s : string) : String.length (rstrip s) <= String.length s.
Proof.
  induction s as [|c s IH]; [reflexivity|].
  cbn [rstrip]. destruct (rstrip s) as [|x r].
  - destruct (isspace c); cbn [String.length]; lia.
  - cbn [String.length] in *. lia.
Qed.

Lemma strip_length (s : string) : String.length (strip s) <= String.length s.
Proof.
  unfold strip.
  pose proof (lstrip_length (rstrip s)). pose proof (rstrip_length s). lia.
Qed.

End SanitizerLength.

(** When a denylisted phrase is left in the sanitized text, a second pass
    makes the text shorter: without the phrases gone, no idempotence. *)
Lemma clean_content_second_pass_shrinks (content phrase : string) :
  In phrase unwanted_phrases ->
  PyStr.contains phrase (clean_content content) = true ->
  String.length (clean_content (clean_content content))
  < String.length (clean_content content).
Proof.
  intros Hin Hthere.
  set (t := clean_content content) in *.
  unfold clean_content at 1. cbn [fold_left unwanted_phrases].
  set (p1 := "Here is the formatted blog post:") in *.
  set (p2 := "Let me know if you need any further assistance!") in *.
  pose proof (SanitizerLength.strip_length
                (PyStr.replace p2 EmptyString (PyStr.replace p1 EmptyString t))) as Hs.
  pose proof (SanitizerLength.replace_from_length p2
                (PyStr.replace p1 EmptyString t) 0) as H2.
  pose proof (SanitizerLength.replace_from_length p1 t 0) as H1.
  change (PyStr.replace_from p2 EmptyString 0) with (PyStr.replace p2 EmptyString) in H2.
  change (PyStr.replace_from p1 EmptyString 0 t) with (PyStr.replace p1 EmptyString t) in H1.
  destruct Hin as [<-|[<-|[]]].
  - pose proof (SanitizerLength.replace_from_shrinks p1 t ltac:(discriminate) Hthere) as H.
    change (PyStr.replace_from p1 EmptyString 0 t) with (PyStr.replace p1 EmptyString t) in H.
    lia.
  - destruct (PyStr.contains p1 t) eqn:E1.
    + pose proof (SanitizerLength.replace_from_shrinks p1 t ltac:(discriminate) E1) as H.
      change (PyStr.replace_from p1 EmptyString 0 t) with (PyStr.replace p1 EmptyString t) in H.
      lia.
    + rewrite (Sanitizer.replace_absent p1 EmptyString t E1) in *.
      pose proof (SanitizerLength.replace_from_shrinks p2 t ltac:(discriminate) Hthere) as H.
      change (PyStr.replace_from p2 EmptyString 0 t) with (PyStr.replace p2 EmptyString t) in H.
      lia.
Qed.

Module Boilerplate.

Import PyStr.

Lemma startswith_app (p rest : string) : startswith p (p ++ rest) = true.
Proof.
  induction p as [|a p IH]; [reflexivity|].
  cbn [append startswith]. now rewrite Ascii.eqb_refl, IH.
Qed.

Lemma replace_from_skip (old new t rest : string) :
  replace_from old new (String.length t) (t ++ rest) = replace_from old new 0 rest.
Proof.
  induction t as [|x t IH]; [reflexivity|].
  cbn [String.length append replace_from]. exact IH.
Qed.

(** One occurrence at the front is replaced, and the scan goes on behind it. *)
Lemma replace_from_occurrence (h : ascii) (old' new rest : string) :
  replace_from (String h old') new 0 (String h old' ++ rest)
  = new ++ replace_from (String h old') new 0 rest.
Proof.
  cbn [append replace_from].
  change (startswith (String h old') (String h (old' ++ rest)))
    with (Ascii.eqb h h && startswith old' (old' ++ rest)).
  rewrite Ascii.eqb_refl, startswith_app. cbn [andb String.length].
  rewrite Nat.sub_succ, Nat.sub_0_r. now rewrite replace_from_skip.
Qed.

(** A stretch of text without the first character of [old] is copied. *)
Lemma replace_from_passes (h : ascii) (old' new t rest : string) :
  free_of h t = true ->
  replace_from (String h old') new 0 (t ++ rest)
  = t ++ replace_from (String h old') new 0 rest.
Proof.
  unfold free_of.
  induction t as [|x t IH]; [reflexivity|].
  cbn [list_ascii_of_string forallb]. intros H.
  apply andb_true_iff in H as [Hx Ht]. apply negb_true_iff in Hx.
  cbn [append replace_from startswith]. rewrite Hx. cbn [andb].
  now rewrite (IH Ht).
Qed.

Lemma free_of_head (h : ascii) (old' : string) : free_of h (String h old') = false.
Proof. unfold free_of. cbn. now rewrite Ascii.eqb_refl. Qed.

(** Removing [old] from a text assembled from copies of [old] and pieces
    without its first character removes exactly the copies. *)
Lemma replace_pieces (h : ascii) (old' : string) (pieces : list string) :
  Forall (fun p => p = String h old' \/ free_of h p = true) pieces ->
  replace (String h old') EmptyString (assemble pieces)
  = assemble (filter (fun p => negb (String.eqb p (String h old'))) pieces).
Proof.
  unfold replace.
  induction 1 as [|p pieces Hp _ IH]; [reflexivity|].
  cbn [assemble fold_right filter].
  destruct (String.eqb_spec p (String h old')) as [->|Hne]; cbn [negb].
  - rewrite replace_from_occurrence. exact IH.
  - destruct Hp as [->|Hfree]; [congruence|].
    rewrite (replace_from_passes _ _ _ _ _ Hfree).
    cbn [assemble fold_right]. f_equal. exact IH.
Qed.

Lemma all_space_free_of (h : ascii) (s : string) :
  isspace h = false -> all_space s = true -> free_of h s = true.
Proof.
  intros Hh. unfold all_space, free_of.
  induction s as [|x s IH]; [reflexivity|].
  cbn [list_ascii_of_string forallb]. intros H.
  apply andb_true_iff in H as [Hx Hs].
  rewrite (IH Hs), andb_true_r. apply negb_true_iff.
  destruct (Ascii.eqb_spec h x) as [->|]; congruence.
Qed.

Lemma all_space_app (s1 s2 : string) :
  all_space (s1 ++ s2) = all_space s1 && all_space s2.
Proof.
  unfold all_space.
  induction s1 as [|x s1 IH]; [reflexivity|].
  cbn [append list_ascii_of_string forallb]. now rewrite IH, andb_assoc.
Qed.

Lemma all_space_assemble (pieces : list string) :
  Forall (fun p => all_space p = true) pieces -> all_space (assemble pieces) = true.
Proof.
  induction 1 as [|p pieces Hp _ IH]; [reflexivity|].
  cbn [assemble fold_right]. rewrite all_space_app, Hp. exact IH.
Qed.

Lemma rstrip_all_space (s : string) : all_space s = true -> rstrip s = EmptyString.
Proof.
  unfold all_space.
  induction s as [|x s IH]; [reflexivity|].
  cbn [list_ascii_of_string forallb rstrip]. intros H.
  apply andb_true_iff in H as [Hx Hs]. now rewrite (IH Hs), Hx.
Qed.

End Boilerplate.

(** C5: an input put together from denylisted phrases and whitespace only
    is sanitized to the empty string. *)
Theorem clean_content_boilerplate_only (pieces : list string) :
  forallb boilerplate_piece pieces = true ->
  clean_content (assemble pieces) = EmptyString.
Proof.
  intros Hall.
  set (p1 := "Here is the formatted blog post:").
  set (p2 := "Let me know if you need any further assistance!").
  assert (Hpieces : Forall (fun p => p = p1 \/ p = p2 \/ all_space p = true) pieces).
  { apply Forall_forall. intros p Hin.
    pose proof (proj1 (forallb_forall _ _) Hall p Hin) as Hp.
    unfold boilerplate_piece in Hp. cbn [existsb unwanted_phrases] in Hp.
    rewrite orb_false_r in Hp.
    apply orb_true_iff in Hp as [Hp|Hp]; [|now right; right].
    apply orb_true_iff in Hp as [Hp|Hp]; apply String.eqb_eq in Hp; auto. }
  unfold clean_content. cbn [fold_left unwanted_phrases].
  fold p1 p2.
  (* first pass: the copies of the first phrase go *)
  rewrite (Boilerplate.replace_pieces "H" "ere is the formatted blog post:").
  2:{ eapply Forall_impl; [|exact Hpieces].
      intros p [->|[->|Hs]]; [now left|right; reflexivity|right].
      now apply Boilerplate.all_space_free_of. }
  fold p1.
  set (pieces1 := filter (fun p => negb (String.eqb p p1)) pieces).
  assert (H1 : Forall (fun p => p = p2 \/ all_space p = true) pieces1).
  { apply Forall_forall. intros p Hin.
    apply filter_In in Hin as [Hin Hne].
    apply negb_true_iff, String.eqb_neq in Hne.
    pose proof (proj1 (Forall_forall _ _) Hpieces p Hin) as [->|[->|Hs]];
      [congruence|now left|now right]. }
  (* second pass: the copies of the second phrase go *)
  rewrite (Boilerplate.replace_pieces
             "L" "et me know if you need any further assistance!").
  2:{ eapply Forall_impl; [|exact H1].
      intros p [->|Hs]; [now left|right].
      now apply Boilerplate.all_space_free_of. }
  fold p2.
  set (pieces2 := filter (fun p => negb (String.eqb p p2)) pieces1).
  assert (H2 : Forall (fun p => all_space p = true) pieces2).
  { apply Forall_forall. intros p Hin.
    apply filter_In in Hin as [Hin Hne].
    apply negb_true_iff, String.eqb_neq in Hne.
    pose proof (proj1 (Forall_forall _ _) H1 p Hin) as [->|Hs];
      [congruence|exact Hs]. }
  (* what is left is whitespace *)
  unfold PyStr.strip.
  now rewrite (Boilerplate.rstrip_all_space _ (Boilerplate.all_space_assemble _ H2)).
Qed.

Lemma clean_content_boilerplate_only_witness :
  clean_content
    (assemble [ "  "; "Here is the formatted blog post:"; PyStr.newline;
                "Let me know if you need any further assistance!"; " ";
                "Here is the formatted blog post:" ])
  = EmptyString.
Proof.
  apply clean_content_boilerplate_only. reflexivity.
Defined.

(** ** Link enrichment *)

Module LinkProofs.

Import PyStr PyRe LinkSpec.

Lemma isword_lower (c : ascii) : isword (lower c) = isword c.
Proof.
  destruct c as [b0 b1 b2 b3 b4 b5 b6 b7];
    destruct b0, b1, b2, b3, b4, b5, b6, b7; reflexivity.
Qed.

Lemma same_letter_isword (x c : ascii) :
  same_letter x c = true -> isword x = isword c.
Proof.
  unfold same_letter. intros H. apply Ascii.eqb_eq in H.
  now rewrite <- (isword_lower x), H, isword_lower.
Qed.

Lemma parse_literal_char (c : ascii) (p : string) :
  literal_char c = true ->
  parse (String c p) = option_map (cons (Lit c)) (parse p).
Proof.
  unfold literal_char. intros H.
  repeat (apply andb_true_iff in H as [H ?]).
  repeat match goal with E : negb _ = true |- _ => apply negb_true_iff in E end.
  cbn [parse]. unfold atom_of.
  now repeat match goal with E : _ = false |- _ => rewrite E; clear E end.
Qed.

Lemma parse_literals (title rest : string) :
  forallb literal_char (list_ascii_of_string title) = true ->
  parse (title ++ rest) = option_map (app (lits title)) (parse rest).
Proof.
  induction title as [|c title IH]; intros H.
  - cbn. now destruct (parse rest).
  - cbn [list_ascii_of_string forallb] in H.
    apply andb_true_iff in H as [Hc Ht].
    cbn [append]. rewrite (parse_literal_char _ _ Hc), (IH Ht).
    now destruct (parse rest).
Qed.

(** The pattern built for a title of literal characters. *)
Lemma parse_title_pattern (title : string) :
  forallb literal_char (list_ascii_of_string title) = true ->
  parse (raw_b ++ title ++ raw_b) = Some (Boundary :: lits title ++ [Boundary]).
Proof.
  intros H.
  change (raw_b ++ title ++ raw_b)
    with (String backslash (String "b" (title ++ raw_b))).
  change (parse (String backslash (String "b" (title ++ raw_b))))
    with (option_map (cons Boundary) (parse (title ++ raw_b))).
  now rewrite (parse_literals _ _ H).
Qed.

(** The literals and the closing [\b]: when the last character matched is a
    word character, the boundary just says that no word character follows. *)
Lemma match_literals_boundary (title : string) :
  forall (prev : option ascii) (s : string),
    (title = EmptyString -> isword_opt prev = true) ->
    (forall c title', title = String c title' -> isword (last_char c title') = true) ->
    match_here (lits title ++ [Boundary]) prev s
    = match after_occurrence title s with
      | Some rest =>
          if negb (isword_opt (head rest)) then Some (String.length title) else None
      | None => None
      end.
Proof.
  induction title as [|c title IH]; intros prev s Hprev Hlast.
  - cbn. rewrite (Hprev eq_refl). cbn [xorb].
    now destruct s; cbn; destruct (isword_opt _).
  - cbn [lits list_ascii_of_string map app match_here after_occurrence String.length].
    destruct s as [|x s]; [reflexivity|].
    fold (same_letter x c). destruct (same_letter x c) eqn:Hx; [|reflexivity].
    fold (lits title). rewrite IH.
    + destruct (after_occurrence title s) as [rest|]; [|reflexivity].
      now destruct (negb (isword_opt (head rest))).
    + intros ->. cbn [isword_opt].
      rewrite (same_letter_isword _ _ Hx). exact (Hlast c EmptyString eq_refl).
    + intros c' title' ->. exact (Hlast c (String c' title') eq_refl).
Qed.

(** For a plain title, the pattern matches exactly at the whole-word
    occurrences. *)
Lemma match_title_pattern (title : string) (prev : option ascii) (s : string) :
  plain_title title = true ->
  match_here (Boundary :: lits title ++ [Boundary]) prev s
  = if whole_word_here title prev s then Some (String.length title) else None.
Proof.
  destruct title as [|c title]; [discriminate|].
  unfold plain_title. intros H.
  apply andb_true_iff in H as [H Hlast]. apply andb_true_iff in H as [_ Hfirst].
  cbn [match_here]. unfold whole_word_here.
  rewrite match_literals_boundary; [|discriminate|now intros ? ? [= <- <-]].
  destruct s as [|x s].
  - cbn. now destruct (isword_opt prev).
  - cbn [after_occurrence head isword_opt].
    destruct (same_letter x c) eqn:Hx.
    + rewrite (same_letter_isword _ _ Hx), Hfirst.
      destruct (after_occurrence title s) as [rest|];
        destruct (isword_opt prev); cbn [xorb negb andb]; reflexivity.
    + now destruct (xorb _ _).
Qed.

(** With such a matcher, the scan of [re.sub] is the scan of the
    specification. *)
Lemma sub_from_wrap_from (atoms : list atom) (title repl : string) :
  title <> EmptyString ->
  (forall prev s,
      match_here atoms prev s
      = if whole_word_here title prev s then Some (String.length title) else None) ->
  forall s prev skip,
    sub_from atoms repl prev skip s = wrap_from (fun _ => repl) title prev skip s.
Proof.
  intros Hne Hmatch.
  destruct title as [|c title]; [congruence|].
  induction s as [|x s IH]; intros prev skip.
  - cbn [sub_from wrap_from]. rewrite Hmatch.
    destruct skip; [|reflexivity].
    now destruct (whole_word_here _ _ _).
  - cbn [sub_from wrap_from]. destruct skip as [|k]; [|apply IH].
    rewrite Hmatch. cbn [String.length].
    destruct (whole_word_here _ _ _); now rewrite IH.
Qed.

Lemma literal_template_app (s1 s2 : string) :
  literal_template (s1 ++ s2) = literal_template s1 && literal_template s2.
Proof.
  unfold literal_template.
  induction s1 as [|x s1 IH]; [reflexivity|].
  cbn [append list_ascii_of_string existsb].
  destruct (Ascii.eqb backslash x); [reflexivity|]. exact IH.
Qed.

Lemma literal_chars_template (title : string) :
  forallb literal_char (list_ascii_of_string title) = true ->
  literal_template title = true.
Proof.
  unfold literal_template.
  induction title as [|c title IH]; [reflexivity|].
  cbn [list_ascii_of_string forallb existsb]. intros H.
  apply andb_true_iff in H as [Hc Ht].
  unfold literal_char in Hc.
  repeat (apply andb_true_iff in Hc as [Hc ?]).
  apply negb_true_iff in Hc. rewrite Ascii.eqb_sym, Hc. exact (IH Ht).
Qed.

Lemma plain_title_literal (title : string) :
  plain_title title = true ->
  forallb literal_char (list_ascii_of_string title) = true.
Proof.
  destruct title as [|c title]; [discriminate|].
  unfold plain_title. intros H.
  apply andb_true_iff in H as [H _]. now apply andb_true_iff in H as [H _].
Qed.

(** One entry of the index. *)
Lemma sub_plain_entry (title url content : string) :
  plain_title title = true ->
  literal_template url = true ->
  sub_ignorecase (raw_b ++ title ++ raw_b) (anchor url title) content
  = Some (link_occurrences title url content).
Proof.
  intros Htitle Hurl.
  pose proof (plain_title_literal _ Htitle) as Hlit.
  unfold sub_ignorecase. rewrite (parse_title_pattern _ Hlit).
  assert (Htpl : literal_template (anchor url title) = true).
  { unfold anchor. rewrite !literal_template_app, Hurl.
    now rewrite (literal_chars_template _ Hlit). }
  rewrite Htpl. unfold link_occurrences. f_equal.
  apply sub_from_wrap_from.
  - destruct title; [discriminate|congruence].
  - intros prev s. now apply match_title_pattern.
Qed.

End LinkProofs.

(** A pattern that matches nowhere leaves the text as it is. *)
Lemma sub_from_no_match (atoms : list PyRe.atom) (repl : string) :
  (forall prev s, PyRe.match_here atoms prev s = None) ->
  forall s prev, PyRe.sub_from atoms repl prev 0 s = s.
Proof.
  intros Hnone. induction s as [|x s IH]; intros prev.
  - cbn [PyRe.sub_from]. now rewrite Hnone.
  - cbn [PyRe.sub_from]. now rewrite Hnone, IH.
Qed.

(** C2 fails on the code: [insert_internal_links] puts the title into the
    pattern without escaping it, so the title is read as a regular
    expression and not as literal text.  In the pattern for the title
    "2^10" the [^] is the start-of-text assertion, which cannot hold after
    the "2": the title is linked in no content at all.  In
    "Why 2^10 is 1024" the title stands as a whole word, and wrapping it
    would give the anchor; the code returns the content as it came. *)
Theorem insert_internal_links_unescaped_title :
  PyRe.parse (PyRe.raw_b ++ "2^10" ++ PyRe.raw_b)
  = Some [PyRe.Boundary; PyRe.Lit "2"; PyRe.AtStart; PyRe.Lit "1"; PyRe.Lit "0";
          PyRe.Boundary]
  /\ (forall content,
         insert_internal_links content [("2^10", "https://x/powers")] = Some content)
  /\ LinkSpec.whole_word_here "2^10" (Some " "%char) "2^10 is 1024" = true
  /\ insert_internal_links "Why 2^10 is 1024" [("2^10", "https://x/powers")]
     = Some "Why 2^10 is 1024"
  /\ LinkSpec.wrap_occurrences "2^10" "https://x/powers" "Why 2^10 is 1024"
     = "Why <a href=" ++ PyStr.dquote ++ "https://x/powers" ++ PyStr.dquote
       ++ ">2^10</a> is 1024".
Proof.
  split; [reflexivity|]. split; [|repeat split; reflexivity].
  intros content. cbn [insert_internal_links]. unfold PyRe.sub_ignorecase.
  change (PyRe.parse (PyRe.raw_b ++ "2^10" ++ PyRe.raw_b))
    with (Some [PyRe.Boundary; PyRe.Lit "2"; PyRe.AtStart; PyRe.Lit "1";
                PyRe.Lit "0"; PyRe.Boundary]).
  change (PyRe.literal_template (anchor "https://x/powers" "2^10")) with true.
  cbv iota. rewrite sub_from_no_match; [reflexivity|].
  intros prev s. cbn [PyRe.match_here].
  destruct (xorb _ _); [|reflexivity].
  destruct s as [|x s]; [reflexivity|].
  now destruct (Ascii.eqb _ _).
Qed.

(** Hence section 4.4, read as [link_enrichment_wraps_occurrences], does not
    hold of the code. *)
Lemma link_enrichment_wraps_occurrences_fails :
  ~ link_enrichment_wraps_occurrences.
Proof.
  intros H.
  specialize (H "Why 2^10 is 1024" [("2^10", "https://x/powers")]).
  vm_compute in H. discriminate.
Qed.

(** Where the defect does not reach: for an index whose titles are plain
    (not empty, made of characters that stand for themselves in a pattern,
    starting and ending with a word character) and whose URLs hold no
    backslash, link enrichment goes through the entries in index order and
    puts, in the place of each whole-word, case-insensitive occurrence of
    the title in the content as it then is, an anchor to the title's URL
    whose text is the title as the index spells it.  For the index
    {"Intro": "https://x/intro"} and "Read the Intro first" this gives the
    text of the specification's example. *)
Theorem insert_internal_links_plain_titles :
  (forall (content : string) (links : link_index),
      forallb LinkSpec.plain_entry links = true ->
      insert_internal_links content links
      = Some (fold_left (fun content entry =>
                           LinkSpec.link_occurrences (fst entry) (snd entry) content)
                        links content))
  /\ insert_internal_links "Read the Intro first" [("Intro", "https://x/intro")]
     = Some ("Read the <a href=" ++ PyStr.dquote ++ "https://x/intro" ++ PyStr.dquote
             ++ ">Intro</a> first").
Proof.
  split; [|reflexivity].
  intros content links. revert content.
  induction links as [|[title url] links IH]; intros content Hplain;
    [reflexivity|].
  cbn [forallb] in Hplain. apply andb_true_iff in Hplain as [Hentry Hplain].
  unfold LinkSpec.plain_entry in Hentry. cbn [fst snd] in Hentry.
  apply andb_true_iff in Hentry as [Htitle Hurl].
  cbn [insert_internal_links fold_left fst snd].
  rewrite (LinkProofs.sub_plain_entry _ _ _ Htitle Hurl).
  now apply IH.
Qed.

Lemma insert_internal_links_plain_titles_witness :
  insert_internal_links "An intro to Go, then GO on"
                        [("Intro", "https://x/intro"); ("Go", "https://x/go")]
  = Some (fold_left (fun content entry =>
                       LinkSpec.link_occurrences (fst entry) (snd entry) content)
                    [("Intro", "https://x/intro"); ("Go", "https://x/go")]
                    "An intro to Go, then GO on").
Proof.
  apply (proj1 insert_internal_links_plain_titles). reflexivity.
Defined.

(** The anchor text is the title as the index spells it, not the text that
    was matched. *)
Example insert_internal_links_anchor_text :
  insert_internal_links "read the intro first" [("Intro", "https://x/intro")]
  = Some ("read the <a href=" ++ PyStr.dquote ++ "https://x/intro" ++ PyStr.dquote
          ++ ">Intro</a> first").
Proof. reflexivity. Qed.

(** A title that ends with a character outside [\w] is matched only where a
    word character follows it. *)
Example insert_internal_links_boundary :
  insert_internal_links "I like C# a lot" [("C#", "https://x/c-sharp")]
  = Some "I like C# a lot"
  /\ insert_internal_links "C#x" [("C#", "u")]
     = Some ("<a href=" ++ PyStr.dquote ++ "u" ++ PyStr.dquote ++ ">C#</a>x").
Proof. split; reflexivity. Qed.

(** Section 4.4: a later title is also matched inside the anchors put in
    for an earlier one. *)
Example insert_internal_links_double_wrap :
  insert_internal_links "Read the Intro first"
                        [("Intro", "https://x/intro"); ("x", "u")]
  = Some ("Read the <a href=" ++ PyStr.dquote ++ "https://<a href=" ++ PyStr.dquote
          ++ "u" ++ PyStr.dquote ++ ">x</a>/intro" ++ PyStr.dquote
          ++ ">Intro</a> first").
Proof. reflexivity. Qed.

(* ================================================================= *)
(** * Further properties of the code *)

(** ** The sanitizer *)

Module Trimmed.

Import PyStr.

Lemma lstrip_no_leading (s : string) : starts_with_space (lstrip s) = false.
Proof.
  induction s as [|c s IH]; [reflexivity|].
  cbn [lstrip]. destruct (isspace c) eqn:E; [exact IH|exact E].
Qed.

Lemma rstrip_no_trailing (s : string) : ends_with_space (rstrip s) = false.
Proof.
  induction s as [|c s IH]; [reflexivity|].
  cbn [rstrip]. destruct (rstrip s) as [|x r].
  - destruct (isspace c) eqn:E; [reflexivity|exact E].
  - exact IH.
Qed.

Lemma lstrip_keeps_end (s : string) :
  ends_with_space s = false -> ends_with_space (lstrip s) = false.
Proof.
  induction s as [|c s IH]; [reflexivity|].
  cbn [lstrip]. intros H. destruct (isspace c) eqn:E; [|exact H].
  apply IH. destruct s as [|x s]; [reflexivity|exact H].
Qed.

End Trimmed.

(** X1: the sanitized text neither starts nor ends with a whitespace
    character. *)
Theorem clean_content_trimmed (content : string) :
  starts_with_space (clean_content content) = false
  /\ ends_with_space (clean_content content) = false.
Proof.
  unfold clean_content, PyStr.strip. split.
  - apply Trimmed.lstrip_no_leading.
  - apply Trimmed.lstrip_keeps_end, Trimmed.rstrip_no_trailing.
Qed.

(** X2: sanitizing never makes the text longer. *)
Theorem clean_content_length (content : string) :
  String.length (clean_content content) <= String.length content.
Proof.
  unfold clean_content. cbn [fold_left unwanted_phrases].
  set (p1 := "Here is the formatted blog post:").
  set (p2 := "Let me know if you need any further assistance!").
  pose proof (SanitizerLength.strip_length
                (PyStr.replace p2 EmptyString (PyStr.replace p1 EmptyString content))).
  pose proof (SanitizerLength.replace_from_length
                p2 (PyStr.replace p1 EmptyString content) 0) as H2.
  pose proof (SanitizerLength.replace_from_length p1 content 0) as H1.
  change (PyStr.replace_from p2 EmptyString 0) with (PyStr.replace p2 EmptyString) in H2.
  change (PyStr.replace_from p1 EmptyString 0 content)
    with (PyStr.replace p1 EmptyString content) in H1.
  lia.
Qed.

(** X3: a text in which no denylisted phrase occurs is only trimmed; if it
    has no whitespace at its ends either, it comes back as it is. *)
Theorem clean_content_without_phrases (content : string) :
  (forall phrase,
      In phrase unwanted_phrases -> PyStr.contains phrase content = false) ->
  clean_content content = PyStr.strip content
  /\ (starts_with_space content = false ->
      ends_with_space content = false ->
      clean_content content = content).
Proof.
  intros Habsent.
  assert (E : clean_content content = PyStr.strip content).
  { unfold clean_content. cbn [fold_left unwanted_phrases].
    rewrite (Sanitizer.replace_absent _ _ content) by (apply Habsent; cbn; auto).
    now rewrite Sanitizer.replace_absent by (apply Habsent; cbn; auto). }
  split; [exact E|].
  intros Hstart Hend. rewrite E. unfold PyStr.strip.
  assert (Hr : PyStr.rstrip content = content).
  { clear E Habsent Hstart. induction content as [|c s IH]; [reflexivity|].
    cbn [PyStr.rstrip]. destruct s as [|x s].
    - cbn in *. now rewrite Hend.
    - rewrite IH by exact Hend. reflexivity. }
  rewrite Hr. destruct content as [|c s]; [reflexivity|].
  cbn in *. now rewrite Hstart.
Qed.

Lemma clean_content_without_phrases_witness :
  clean_content "  Plain text.  " = PyStr.strip "  Plain text.  "
  /\ clean_content "Plain text." = "Plain text.".
Proof.
  split.
  - apply clean_content_without_phrases.
    intros phrase [<-|[<-|[]]]; reflexivity.
  - apply clean_content_without_phrases; try reflexivity.
    intros phrase [<-|[<-|[]]]; reflexivity.
Defined.

(** ** The rewrite step *)

Module Rewrite.

Import PyStr.

(** A text without the first character of [old] that is read at the front
    of the result was at the front of the input. *)
Lemma startswith_replace_from (h : ascii) (old' new' q : string) :
  free_of h q = true ->
  forall s,
    startswith q (replace_from (String h old') (String h new') 0 s) = true ->
    startswith q s = true.
Proof.
  unfold free_of.
  induction q as [|a q IH]; [reflexivity|].
  cbn [list_ascii_of_string forallb]. intros H s.
  apply andb_true_iff in H as [Ha Hq]. apply negb_true_iff in Ha.
  destruct s as [|c s]; [discriminate|].
  cbn [replace_from].
  destruct (startswith (String h old') (String c s)).
  - cbn [append startswith]. rewrite Ascii.eqb_sym, Ha. discriminate.
  - cbn [startswith]. intros E. apply andb_true_iff in E as [Eac E].
    now rewrite Eac, (IH Hq s E).
Qed.

Lemma closing_tags_followed (s : string) :
  forall skip,
    always_followed "</p>" newline
                    (replace_from "</p>" ("</p>" ++ newline) skip s) = true.
Proof.
  induction s as [|c s IH]; intros skip; [now destruct skip|].
  cbn [replace_from]. destruct skip as [|k]; [|apply IH].
  destruct (startswith "</p>" (String c s)) eqn:Hhere.
  - change (("</p>" ++ newline)
              ++ replace_from "</p>" ("</p>" ++ newline) (String.length "</p>" - 1) s)
      with (String "<" (String "/" (String "p" (String ">" (String (ascii_of_nat 10)
              (replace_from "</p>" ("</p>" ++ newline) 3 s)))))).
    cbn [always_followed startswith append newline Ascii.eqb Bool.eqb andb negb orb
         ascii_of_nat ascii_of_pos].
    apply IH.
  - cbn [always_followed]. rewrite IH, andb_true_r.
    apply orb_true_iff. left. apply negb_true_iff.
    destruct (startswith "</p>" (String c (replace_from "</p>" ("</p>" ++ newline) 0 s)))
      eqn:E; [|reflexivity].
    cbn [startswith] in E. apply andb_true_iff in E as [Ec E].
    apply (startswith_replace_from "<" "/p>" ("/p>" ++ newline) "/p>" eq_refl) in E.
    cbn [startswith] in Hhere. rewrite Ec in Hhere. cbn [andb] in Hhere.
    cbn [startswith] in E. congruence.
Qed.

Lemma replace_from_nonempty (h h' : ascii) (old' new' : string) (c : ascii) (s : string) :
  replace_from (String h old') (String h' new') 0 (String c s) <> EmptyString.
Proof.
  cbn [replace_from]. destruct (startswith _ _); discriminate.
Qed.

End Rewrite.

(** X4: in the text the rewrite step returns, every closing paragraph tag
    is directly followed by a newline. *)
Theorem process_with_llama3_closing_tags
        (w : world) (text formatted_content : string) :
  fst (run (process_with_llama3 w text)) = Returned (Some formatted_content) ->
  always_followed "</p>" PyStr.newline formatted_content = true.
Proof.
  unfold run. rewrite process_with_llama3_run. cbn [fst]. unfold rewritten.
  destruct (ollama_chat w "llama3" "user" (prompt_of text)) as [raw|];
    [|discriminate].
  cbn [option_map]. intros [= <-].
  apply Rewrite.closing_tags_followed.
Qed.

Lemma process_with_llama3_closing_tags_witness :
  always_followed "</p>" PyStr.newline
                  ("<p>One</p>" ++ PyStr.newline ++ "<p>Two</p>" ++ PyStr.newline)
  = true.
Proof.
  apply (process_with_llama3_closing_tags
           (sample_world (Some "<p>One</p><p>Two</p>") (200%Z, []) no_tags
                         (201%Z, created))
           "Some text").
  reflexivity.
Defined.

(** X5: the endpoint answers with the 500 error "LLaMA 3 processing failed"
    exactly when the content is not empty and the chat response has no
    message or an empty message content. *)
Theorem upload_blog_rewrite_failure_exact
        (word_tokenize : string -> list string) (cfg : config) (w : world)
        (title blog_content : string) :
  fst (run (upload_blog word_tokenize cfg w title blog_content))
  = Raised (HTTPException 500 "LLaMA 3 processing failed")
  <-> blog_content <> EmptyString
      /\ (ollama_chat w "llama3" "user" (prompt_of (clean_content blog_content)) = None
          \/ ollama_chat w "llama3" "user" (prompt_of (clean_content blog_content))
             = Some EmptyString).
Proof.
  rewrite upload_blog_run.
  destruct blog_content as [|c0 rest].
  - split; [discriminate|]. now intros [H _].
  - cbv zeta. unfold rewritten.
    destruct (ollama_chat w "llama3" "user" (prompt_of (clean_content (String c0 rest))))
      as [[|r0 raw]|]; cbn [option_map].
    + split; [intros _|reflexivity]. split; [discriminate|now right].
    + destruct (PyStr.replace "</p>" ("</p>" ++ PyStr.newline) (String r0 raw))
        as [|f0 frest] eqn:E.
      { exfalso. exact (Rewrite.replace_from_nonempty _ _ _ _ _ _ E). }
      split.
      * destruct (insert_internal_links (String f0 frest) (fetched_links cfg w));
          cbn [fst]; [|discriminate].
        unfold respond. destruct (_ && _)%bool; discriminate.
      * intros [_ [H|H]]; discriminate.
    + split; [intros _|reflexivity]. split; [discriminate|now left].
Qed.

Lemma upload_blog_rewrite_failure_exact_witness :
  fst (run (upload_blog PyStr.split sample_cfg
                        (sample_world (Some EmptyString) (200%Z, []) no_tags
                                      (201%Z, created))
                        "Title" "Some text"))
  = Raised (HTTPException 500 "LLaMA 3 processing failed").
Proof.
  apply (proj2 (upload_blog_rewrite_failure_exact _ _ _ _ _)).
  split; [discriminate|right; reflexivity].
Defined.

(** ** The link index *)

Module LinkIndex.

Lemma keys_dict_set (d : link_index) (k v : string) :
  map fst (dict_set d k v) = add_once (map fst d) k.
Proof.
  unfold add_once.
  induction d as [|[k' v'] d IH]; [reflexivity|].
  cbn [dict_set map fst existsb]. rewrite (String.eqb_sym k k').
  destruct (String.eqb_spec k' k) as [->|Hne]; [reflexivity|].
  cbn [map fst orb]. rewrite IH.
  now destruct (existsb (String.eqb k) (map fst d)).
Qed.

Lemma keys_fold (posts : list post) :
  forall d : link_index,
    map fst (fold_left (fun d p => dict_set d (title_rendered p) (link p)) posts d)
    = fold_left add_once (map title_rendered posts) (map fst d).
Proof.
  induction posts as [|p posts IH]; intros d; [reflexivity|].
  cbn [fold_left map]. now rewrite IH, keys_dict_set.
Qed.

Lemma existsb_eqb_In (k : string) (l : list string) :
  existsb (String.eqb k) l = true <-> In k l.
Proof.
  rewrite existsb_exists. split.
  - intros (x & Hin & E). apply String.eqb_eq in E. now subst.
  - intros H. exists k. split; [exact H|apply String.eqb_refl].
Qed.

Lemma add_once_NoDup (seen : list string) (k : string) :
  NoDup seen -> NoDup (add_once seen k).
Proof.
  intros H. unfold add_once.
  destruct (existsb (String.eqb k) seen) eqn:E; [exact H|].
  apply NoDup_app; [exact H|repeat constructor; intros []|].
  intros x Hx [<-|[]].
  apply existsb_eqb_In in Hx. congruence.
Qed.

Lemma add_once_In (seen : list string) (k t : string) :
  In t (add_once seen k) <-> In t seen \/ t = k.
Proof.
  unfold add_once. destruct (existsb (String.eqb k) seen) eqn:E.
  - apply existsb_eqb_In in E. split; [now left|]. now intros [H| ->].
  - rewrite in_app_iff. cbn [In]. intuition.
Qed.

Lemma fold_add_once (titles : list string) :
  forall seen,
    NoDup seen ->
    NoDup (fold_left add_once titles seen)
    /\ forall t, In t (fold_left add_once titles seen) <-> In t seen \/ In t titles.
Proof.
  induction titles as [|k titles IH]; intros seen Hseen.
  - split; [exact Hseen|]. cbn. intuition.
  - cbn [fold_left]. destruct (IH _ (add_once_NoDup seen k Hseen)) as [Hnd Hin].
    split; [exact Hnd|]. intros t. rewrite Hin, add_once_In. cbn [In].
    intuition.
Qed.

Lemma dict_get_set (d : link_index) (k v t : string) :
  dict_get (dict_set d k v) t = if String.eqb k t then Some v else dict_get d t.
Proof.
  induction d as [|[k' v'] d IH]; [reflexivity|].
  cbn [dict_set dict_get].
  destruct (String.eqb_spec k' k) as [->|Hne]; cbn [dict_get].
  - now destruct (String.eqb k t).
  - rewrite IH. destruct (String.eqb_spec k' t) as [->|]; [|reflexivity].
    destruct (String.eqb_spec k t); congruence.
Qed.

Lemma dict_get_fold (posts : list post) (t : string) :
  forall d : link_index,
    dict_get (fold_left (fun d p => dict_set d (title_rendered p) (link p)) posts d) t
    = fold_left (fun found p =>
                   if String.eqb (title_rendered p) t then Some (link p) else found)
                posts (dict_get d t).
Proof.
  induction posts as [|p posts IH]; intros d; [reflexivity|].
  cbn [fold_left]. now rewrite IH, dict_get_set.
Qed.

(** In a dict, the entries are what lookups find. *)
Lemma dict_get_In (d : link_index) (k v : string) :
  NoDup (map fst d) -> (In (k, v) d <-> dict_get d k = Some v).
Proof.
  induction d as [|[k' v'] d IH]; intros Hnd.
  - cbn. split; [intros []|discriminate].
  - cbn [map fst] in Hnd. inversion Hnd as [|? ? Hnotin Hnd']; subst.
    cbn [In dict_get]. destruct (String.eqb_spec k' k) as [->|Hne].
    + split.
      * intros [[= ->]|Hin]; [reflexivity|].
        exfalso. apply Hnotin. apply in_map_iff. now exists (k, v).
      * intros [= ->]. now left.
    + rewrite <- (IH Hnd'). split; [|now right].
      intros [[= E _]|Hin]; [congruence|exact Hin].
Qed.

(** What the posts read puts into the index. *)
Lemma get_internal_links_index (cfg : config) (w : world) (posts : list post)
      (index : link_index) :
  requests_get_posts w (posts_url cfg) (wp_auth cfg) = (200%Z, posts) ->
  fst (run (get_internal_links cfg w)) = Returned index ->
  index = fold_left (fun d p => dict_set d (title_rendered p) (link p)) posts [].
Proof.
  intros Hposts. unfold run. rewrite get_internal_links_run. cbn [fst].
  unfold fetched_links, posts_response. rewrite Hposts. cbn [fst snd Z.eqb Pos.eqb].
  now intros [= <-].
Qed.

End LinkIndex.

(** X6: after a posts read that returns 200, the index holds the titles of
    the listing, each once, in the order of their first appearance. *)
Theorem get_internal_links_titles
        (cfg : config) (w : world) (posts : list post) (index : link_index) :
  requests_get_posts w (posts_url cfg) (wp_auth cfg) = (200%Z, posts) ->
  fst (run (get_internal_links cfg w)) = Returned index ->
  map fst index = first_occurrences (map title_rendered posts)
  /\ NoDup (map fst index)
  /\ (forall title, In title (map fst index) <-> In title (map title_rendered posts)).
Proof.
  intros Hposts Hrun.
  rewrite (LinkIndex.get_internal_links_index _ _ _ _ Hposts Hrun).
  rewrite LinkIndex.keys_fold. cbn [map]. fold (first_occurrences (map title_rendered posts)).
  destruct (LinkIndex.fold_add_once (map title_rendered posts) [] (NoDup_nil _))
    as [Hnd Hin].
  split; [reflexivity|]. split; [exact Hnd|].
  intros title. rewrite Hin. cbn [In]. intuition.
Qed.

Lemma get_internal_links_titles_witness :
  let posts := [ {| title_rendered := "Intro"; link := "https://x/1" |};
                 {| title_rendered := "Go"; link := "https://x/2" |};
                 {| title_rendered := "Intro"; link := "https://x/3" |} ] in
  map fst [("Intro", "https://x/3"); ("Go", "https://x/2")]
  = first_occurrences (map title_rendered posts).
Proof.
  intro posts.
  apply (get_internal_links_titles
           sample_cfg (sample_world None (200%Z, posts) no_tags (201%Z, created))
           posts [("Intro", "https://x/3"); ("Go", "https://x/2")]);
    reflexivity.
Defined.

(** X7: after a posts read that returns 200, the index maps a title to the
    link of the last post of the listing with that title, and has no entry
    for any other title. *)
Theorem get_internal_links_last_link
        (cfg : config) (w : world) (posts : list post) (index : link_index) :
  requests_get_posts w (posts_url cfg) (wp_auth cfg) = (200%Z, posts) ->
  fst (run (get_internal_links cfg w)) = Returned index ->
  forall title url,
    In (title, url) index <-> last_link posts title = Some url.
Proof.
  intros Hposts Hrun title url.
  assert (Hnd : NoDup (map fst index)).
  { rewrite (LinkIndex.get_internal_links_index _ _ _ _ Hposts Hrun).
    rewrite LinkIndex.keys_fold.
    apply (LinkIndex.fold_add_once _ [] (NoDup_nil _)). }
  rewrite (LinkIndex.dict_get_In _ _ _ Hnd).
  rewrite (LinkIndex.get_internal_links_index _ _ _ _ Hposts Hrun).
  now rewrite LinkIndex.dict_get_fold.
Qed.

Lemma get_internal_links_last_link_witness :
  let posts := [ {| title_rendered := "Intro"; link := "https://x/1" |};
                 {| title_rendered := "Go"; link := "https://x/2" |};
                 {| title_rendered := "Intro"; link := "https://x/3" |} ] in
  In ("Intro", "https://x/3") [("Intro", "https://x/3"); ("Go", "https://x/2")].
Proof.
  intro posts.
  apply (get_internal_links_last_link
           sample_cfg (sample_world None (200%Z, posts) no_tags (201%Z, created))
           posts [("Intro", "https://x/3"); ("Go", "https://x/2")]);
    reflexivity.
Defined.

(** ** Link enrichment, for every literal title *)

Module LinkEdgeProofs.

Import PyStr PyRe LinkSpec LinkEdges.

(** The literals and the closing [\b], whatever the last character is. *)
Lemma match_literals_edge (title : string) :
  forall (prev : option ascii) (s : string),
    match_here (lits title ++ [Boundary]) prev s
    = match after_occurrence title s with
      | Some rest =>
          if xorb (match title with
                   | EmptyString => isword_opt prev
                   | String c title' => isword (last_char c title')
                   end)
                  (isword_opt (head rest))
          then Some (String.length title) else None
      | None => None
      end.
Proof.
  induction title as [|c title IH]; intros prev s.
  - cbn. now destruct (xorb _ _).
  - cbn [lits list_ascii_of_string map app match_here after_occurrence String.length].
    destruct s as [|x s]; [reflexivity|].
    fold (same_letter x c). destruct (same_letter x c) eqn:Hx; [|reflexivity].
    fold (lits title). rewrite IH.
    destruct (after_occurrence title s) as [rest|]; [|reflexivity].
    assert (E : match title with
                | EmptyString => isword_opt (Some x)
                | String c' title' => isword (last_char c' title')
                end = isword (last_char c title)).
    { destruct title; [|reflexivity]. cbn. now apply LinkProofs.same_letter_isword. }
    rewrite E. now destruct (xorb _ _).
Qed.

Lemma match_title_edges (title : string) (prev : option ascii) (s : string) :
  literal_title title = true ->
  match_here (Boundary :: lits title ++ [Boundary]) prev s
  = if edge_here title prev s then Some (String.length title) else None.
Proof.
  destruct title as [|c title]; [discriminate|]. intros _.
  cbn [match_here]. rewrite match_literals_edge. unfold edge_here.
  destruct s as [|x s].
  - cbn. now destruct (xorb _ _).
  - cbn [after_occurrence head isword_opt].
    destruct (same_letter x c) eqn:Hx.
    + rewrite (LinkProofs.same_letter_isword _ _ Hx).
      destruct (after_occurrence title s) as [rest|];
        destruct (xorb (isword_opt prev) (isword c)); cbn [andb]; reflexivity.
    + now destruct (xorb _ _).
Qed.

Lemma sub_from_replace_where (atoms : list atom) (repl : string)
      (here : option ascii -> string -> bool) (k : nat) :
  (forall prev s,
      match_here atoms prev s = if here prev s then Some (S k) else None) ->
  (forall prev, here prev EmptyString = false) ->
  forall s prev skip,
    sub_from atoms repl prev skip s = replace_where here (S k) repl prev skip s.
Proof.
  intros Hmatch Hend.
  induction s as [|x s IH]; intros prev skip.
  - cbn [sub_from replace_where]. rewrite Hmatch, Hend. now destruct skip.
  - cbn [sub_from replace_where]. destruct skip as [|j]; [|apply IH].
    rewrite Hmatch. destruct (here prev (String x s)); rewrite IH; [|reflexivity].
    cbn [Nat.sub]. now rewrite Nat.sub_0_r.
Qed.

Lemma literal_title_chars (title : string) :
  literal_title title = true ->
  forallb literal_char (list_ascii_of_string title) = true.
Proof. destruct title; [discriminate|]. now intros H. Qed.

(** One entry of the index. *)
Lemma sub_literal_entry (title url content : string) :
  literal_title title = true ->
  literal_template url = true ->
  sub_ignorecase (raw_b ++ title ++ raw_b) (anchor url title) content
  = Some (link_at_edges title url content).
Proof.
  intros Htitle Hurl.
  pose proof (literal_title_chars _ Htitle) as Hlit.
  unfold sub_ignorecase. rewrite (LinkProofs.parse_title_pattern _ Hlit).
  assert (Htpl : literal_template (anchor url title) = true).
  { unfold anchor. rewrite !LinkProofs.literal_template_app, Hurl.
    now rewrite (LinkProofs.literal_chars_template _ Hlit). }
  rewrite Htpl. unfold link_at_edges. f_equal.
  destruct title as [|c title]; [discriminate|].
  apply sub_from_replace_where.
  - intros prev s. now rewrite match_title_edges.
  - intros prev. reflexivity.
Qed.

Lemma insert_literal_entries (links : link_index) :
  forall content,
    forallb literal_entry links = true ->
    insert_internal_links content links
    = Some (fold_left (fun content entry =>
                         link_at_edges (fst entry) (snd entry) content)
                      links content).
Proof.
  induction links as [|[title url] links IH]; intros content Hall;
    [reflexivity|].
  cbn [forallb] in Hall. apply andb_true_iff in Hall as [Hentry Hall].
  unfold literal_entry in Hentry. cbn [fst snd] in Hentry.
  apply andb_true_iff in Hentry as [Htitle Hurl].
  cbn [insert_internal_links fold_left fst snd].
  rewrite (sub_literal_entry _ _ _ Htitle Hurl). now apply IH.
Qed.

(** Where the title does not occur, nothing is replaced. *)
Lemma replace_where_absent (title repl : string) (width : nat) (s : string) :
  occurs_ci title s = false ->
  forall prev, replace_where (edge_here title) width repl prev 0 s = s.
Proof.
  induction s as [|x s IH]; [reflexivity|].
  cbn [occurs_ci]. intros H prev.
  apply orb_false_iff in H as [Hhere Hlater].
  cbn [replace_where]. unfold edge_here at 1.
  destruct title as [|c title]; [now rewrite IH|].
  destruct (after_occurrence (String c title) (String x s)); [discriminate|].
  now rewrite IH.
Qed.

Lemma string_length_app (s1 s2 : string) :
  String.length (s1 ++ s2) = String.length s1 + String.length s2.
Proof. induction s1 as [|c s1 IH]; cbn; [reflexivity|now rewrite IH]. Qed.

Lemma replace_where_length (here : option ascii -> string -> bool) (width : nat)
      (repl : string) :
  0 < width -> width <= String.length repl ->
  forall s prev skip,
    String.length s
    <= String.length (replace_where here width repl prev skip s) + skip.
Proof.
  intros Hpos Hw. induction s as [|x s IH]; intros prev skip; [cbn; lia|].
  cbn [replace_where String.length]. destruct skip as [|k].
  - destruct (here prev (String x s)).
    + rewrite string_length_app. specialize (IH (Some x) (width - 1)). lia.
    + cbn [String.length]. specialize (IH (Some x) 0). lia.
  - specialize (IH (Some x) k). lia.
Qed.

Lemma anchor_length (url title : string) :
  String.length title <= String.length (anchor url title).
Proof. unfold anchor. rewrite !string_length_app. lia. Qed.

End LinkEdgeProofs.

(** X8: for an index whose titles are not empty and made of literal
    characters (URLs without backslash), link enrichment goes through the
    entries in order and replaces the case-insensitive occurrences of the
    title that have a word boundary at each end: exactly one of the
    character before and the first character is a word character, and so
    for the last character and the character after.  A title ending in "#"
    is thus matched only where a word character follows. *)
Theorem insert_internal_links_literal_titles
        (content : string) (links : link_index) :
  forallb LinkEdges.literal_entry links = true ->
  insert_internal_links content links
  = Some (fold_left (fun content entry =>
                       LinkEdges.link_at_edges (fst entry) (snd entry) content)
                    links content).
Proof. apply LinkEdgeProofs.insert_literal_entries. Qed.

Lemma insert_internal_links_literal_titles_witness :
  insert_internal_links "C# and C#x" [("C#", "https://x/c-sharp")]
  = Some (LinkEdges.link_at_edges "C#" "https://x/c-sharp" "C# and C#x").
Proof.
  apply (insert_internal_links_literal_titles
           "C# and C#x" [("C#", "https://x/c-sharp")]).
  reflexivity.
Defined.

(** X9: link enrichment leaves the content as it is when none of the
    (literal) titles of the index occurs in it, in whatever case. *)
Theorem insert_internal_links_absent_titles
        (content : string) (links : link_index) :
  forallb LinkEdges.literal_entry links = true ->
  forallb (fun entry => negb (LinkEdges.occurs_ci (fst entry) content)) links = true ->
  insert_internal_links content links = Some content.
Proof.
  intros Hlit Habsent.
  rewrite (LinkEdgeProofs.insert_literal_entries _ _ Hlit). f_equal.
  clear Hlit. induction links as [|[title url] links IH]; [reflexivity|].
  cbn [forallb fst] in Habsent. apply andb_true_iff in Habsent as [Ht Hrest].
  apply negb_true_iff in Ht.
  cbn [fold_left fst snd]. unfold LinkEdges.link_at_edges at 2.
  rewrite (LinkEdgeProofs.replace_where_absent _ _ _ _ Ht). exact (IH Hrest).
Qed.

Lemma insert_internal_links_absent_titles_witness :
  insert_internal_links "Nothing to link here"
                        [("Intro", "https://x/intro"); ("Go", "https://x/go")]
  = Some "Nothing to link here".
Proof.
  apply insert_internal_links_absent_titles; reflexivity.
Defined.

(** X10: with such an index, link enrichment never makes the content
    shorter. *)
Theorem insert_internal_links_length
        (content final_content : string) (links : link_index) :
  forallb LinkEdges.literal_entry links = true ->
  insert_internal_links content links = Some final_content ->
  String.length content <= String.length final_content.
Proof.
  intros Hlit. rewrite (LinkEdgeProofs.insert_literal_entries _ _ Hlit).
  intros [= <-]. revert content.
  induction links as [|[title url] links IH]; intros content; [cbn; lia|].
  cbn [forallb] in Hlit. apply andb_true_iff in Hlit as [Hentry Hlit].
  apply andb_true_iff in Hentry as [Htitle _]. cbn [fst] in Htitle.
  cbn [fold_left fst snd].
  specialize (IH Hlit (LinkEdges.link_at_edges title url content)).
  assert (Hpos : 0 < String.length title)
    by (destruct title; [discriminate|cbn; lia]).
  pose proof (LinkEdgeProofs.replace_where_length
                (LinkEdges.edge_here title) (String.length title) (anchor url title)
                Hpos (LinkEdgeProofs.anchor_length url title) content None 0) as H.
  fold (LinkEdges.link_at_edges title url content) in H.
  lia.
Qed.

Lemma insert_internal_links_length_witness :
  String.length "Read the Intro first"
  <= String.length ("Read the <a href=" ++ PyStr.dquote ++ "https://x/intro"
                    ++ PyStr.dquote ++ ">Intro</a> first").
Proof.
  apply (insert_internal_links_length _ _ [("Intro", "https://x/intro")]);
    reflexivity.
Defined.


(** ** Tag resolution, further *)

(** X12: the words are resolved one by one and independently: resolving two
    lists of words put together gives the IDs of the first followed by the
    IDs of the second, and makes the searches of the first followed by the
    searches of the second. *)
Theorem fetch_tag_ids_app
        (cfg : config) (w : world) (tags1 tags2 : list string)
        (ids1 ids2 : list Z) (calls1 calls2 : trace) :
  run (fetch_tag_ids cfg w tags1) = (Returned ids1, calls1) ->
  run (fetch_tag_ids cfg w tags2) = (Returned ids2, calls2) ->
  run (fetch_tag_ids cfg w (tags1 ++ tags2)%list)
  = (Returned (ids1 ++ ids2)%list, (calls1 ++ calls2)%list).
Proof.
  unfold run. rewrite !fetch_tag_ids_run. cbn [app].
  intros [= <- <-] [= <- <-]. now rewrite flat_map_app, map_app.
Qed.

Lemma fetch_tag_ids_app_witness :
  let w := sample_world None (200%Z, []) only_go (201%Z, created) in
  run (fetch_tag_ids sample_cfg w (["Rust"; "Go"] ++ ["Go"])%list)
  = (Returned ([5%Z] ++ [5%Z])%list,
     ([search_call sample_cfg "Rust"; search_call sample_cfg "Go"]
        ++ [search_call sample_cfg "Go"])%list).
Proof.
  intro w.
  apply (fetch_tag_ids_app sample_cfg w ["Rust"; "Go"] ["Go"]); reflexivity.
Defined.

(** X13: tag resolution returns at most one ID per word, and every ID it
    returns is the ID of the first item of a 200 response to the search for
    one of the words. *)
Theorem fetch_tag_ids_provenance
        (cfg : config) (w : world) (tags : list string) (ids : list Z) :
  fst (run (fetch_tag_ids cfg w tags)) = Returned ids ->
  List.length ids <= List.length tags
  /\ forall id,
      In id ids ->
      exists tag others,
        In tag tags
        /\ requests_get_tags w (tags_url cfg ++ tag) (wp_auth cfg)
           = (200%Z, id :: others).
Proof.
  unfold run. rewrite fetch_tag_ids_run. cbn [fst]. intros [= <-]. split.
  - induction tags as [|tag tags IH]; [reflexivity|].
    cbn [flat_map]. rewrite length_app. cbn [List.length].
    unfold first_result_id at 1. destruct (search_results cfg w tag); cbn; lia.
  - intros id Hin. apply in_flat_map in Hin as (tag & Htag & Hid).
    unfold first_result_id, search_results, search_response in Hid.
    destruct (requests_get_tags w (tags_url cfg ++ tag) (wp_auth cfg))
      as [status items] eqn:E.
    cbn [fst snd] in Hid.
    destruct (Z.eqb_spec status 200) as [->|]; [|destruct Hid].
    destruct items as [|first others]; [destruct Hid|].
    destruct Hid as [<-|[]]. now exists tag, others.
Qed.

Lemma fetch_tag_ids_provenance_witness :
  let w := sample_world None (200%Z, []) only_go (201%Z, created) in
  List.length [5%Z] <= List.length ["Go"; "Rust"].
Proof.
  intro w.
  apply (fetch_tag_ids_provenance sample_cfg w ["Go"; "Rust"] [5%Z]).
  reflexivity.
Defined.

(** ** The endpoint, further *)

Module Words.

Import PyStr.



Lemma split_from_word (word : string) :
  forall acc s,
    forallb (fun c => negb (isspace c)) (list_ascii_of_string word) = true ->
    split_from acc (word ++ s) = split_from (acc ++ word) s.
Proof.
  induction word as [|c word IH]; intros acc s H.
  - cbn [append]. f_equal. induction acc; cbn; [reflexivity|now f_equal].
  - cbn [list_ascii_of_string forallb] in H. apply andb_true_iff in H as [Hc H].
    apply negb_true_iff in Hc.
    cbn [append split_from]. rewrite Hc, (IH _ _ H). f_equal.
    clear. induction acc; cbn; [reflexivity|now f_equal].
Qed.

Lemma split_join (words : list string) :
  Forall (fun t => is_word t = true) words ->
  split (join " " words) = words.
Proof.
  unfold split, join.
  induction 1 as [|x words Hx Hwords IH]; [reflexivity|].
  unfold is_word in Hx. apply andb_true_iff in Hx as [Hne Hx].
  cbn [String.concat]. destruct words as [|y words].
  - replace x with (x ++ EmptyString) at 1
      by (clear; induction x; cbn; [reflexivity|now f_equal]).
    rewrite (split_from_word _ _ _ Hx). cbn [append split_from].
    now destruct x.
  - rewrite (split_from_word _ _ _ Hx). cbn [append split_from].
    change (isspace " ") with true. cbv iota.
    destruct x as [|c x]; [discriminate|]. now rewrite IH.
Qed.

End Words.

(** X14: when the tokens are words (not empty, free of whitespace), the
    whitespace-separated words of the normalizer's output are exactly the
    tokens, in order. *)
Theorem spell_check_split
        (word_tokenize : string -> list string) (text : string) :
  forallb is_word (word_tokenize text) = true ->
  PyStr.split (spell_check word_tokenize text) = word_tokenize text.
Proof.
  intros H. unfold spell_check. apply Words.split_join.
  apply Forall_forall. intros t Hin.
  exact (proj1 (forallb_forall _ _) H t Hin).
Qed.

Lemma spell_check_split_witness :
  PyStr.split (spell_check (fun _ => ["<p>"; "Hello"; "world"; "</p>"]) "any")
  = ["<p>"; "Hello"; "world"; "</p>"].
Proof.
  apply (spell_check_split (fun _ => ["<p>"; "Hello"; "world"; "</p>"]) "any").
  reflexivity.
Defined.






(** X19: the emptiness test reads the content as it came, before it is
    sanitized: a content that is not empty but is sanitized to the empty
    string does not get the 400 answer; the chat model is called, with the
    prompt built around the empty text. *)
Theorem upload_blog_checks_before_cleaning
        (word_tokenize : string -> list string) (cfg : config) (w : world)
        (title blog_content : string) :
  blog_content <> EmptyString ->
  clean_content blog_content = EmptyString ->
  fst (run (upload_blog word_tokenize cfg w title blog_content))
  <> Raised (HTTPException 400 "No content provided")
  /\ exists later,
      snd (run (upload_blog word_tokenize cfg w title blog_content))
      = OllamaChat "llama3" "user" (prompt_of EmptyString) :: later.
Proof.
  intros Hne Hclean. rewrite upload_blog_run.
  destruct blog_content as [|c0 rest]; [congruence|].
  cbv zeta. rewrite Hclean.
  destruct (rewritten w EmptyString) as [[|f0 frest]|].
  - split; [discriminate|now eexists].
  - destruct (insert_internal_links (String f0 frest) (fetched_links cfg w)).
    + cbn [fst snd]. split; [|unfold calls_before_publish; now eexists].
      unfold respond. destruct (_ && _)%bool; discriminate.
    + split; [discriminate|now eexists].
  - split; [discriminate|now eexists].
Qed.

Lemma upload_blog_checks_before_cleaning_witness :
  let w := sample_world None (200%Z, []) no_tags (201%Z, created) in
  exists later,
    snd (run (upload_blog PyStr.split sample_cfg w "Title"
                          "  Here is the formatted blog post: "))
    = OllamaChat "llama3" "user" (prompt_of EmptyString) :: later.
Proof.
  intro w.
  apply (upload_blog_checks_before_cleaning PyStr.split sample_cfg w "Title"
           "  Here is the formatted blog post: ").
  - discriminate.
  - reflexivity.
Defined.



(** ** The sanitizer, further *)

(** X21: in a text put together from denylisted phrases and from pieces in
    which no phrase can start (pieces without "H" and "L"), the sanitizer
    removes every phrase and only the phrases: the result is the other
    pieces put together, trimmed. *)
Theorem clean_content_removes_phrases (pieces : list string) :
  forallb (fun piece => denylisted piece || inert_piece piece) pieces = true ->
  clean_content (assemble pieces)
  = PyStr.strip (assemble (filter (fun piece => negb (denylisted piece)) pieces)).
Proof.
  intros Hall.
  set (p1 := "Here is the formatted blog post:").
  set (p2 := "Let me know if you need any further assistance!").
  assert (Hpieces : Forall (fun p => p = p1 \/ p = p2 \/ inert_piece p = true) pieces).
  { apply Forall_forall. intros p Hin.
    pose proof (proj1 (forallb_forall _ _) Hall p Hin) as Hp. cbv beta in Hp.
    unfold denylisted in Hp. cbn [existsb unwanted_phrases] in Hp.
    rewrite orb_false_r in Hp.
    apply orb_true_iff in Hp as [Hp|Hp]; [|now right; right].
    apply orb_true_iff in Hp as [Hp|Hp]; apply String.eqb_eq in Hp; auto. }
  unfold clean_content. cbn [fold_left unwanted_phrases]. fold p1 p2.
  rewrite (Boilerplate.replace_pieces "H" "ere is the formatted blog post:").
  2:{ eapply Forall_impl; [|exact Hpieces].
      intros p [->|[->|Hs]]; [now left|right; reflexivity|right].
      unfold inert_piece in Hs. now apply andb_true_iff in Hs as [Hs _]. }
  fold p1.
  set (pieces1 := filter (fun p => negb (String.eqb p p1)) pieces).
  assert (H1 : Forall (fun p => p = p2 \/ inert_piece p = true) pieces1).
  { apply Forall_forall. intros p Hin.
    apply filter_In in Hin as [Hin Hne].
    apply negb_true_iff, String.eqb_neq in Hne.
    pose proof (proj1 (Forall_forall _ _) Hpieces p Hin) as [->|[->|Hs]];
      [congruence|now left|now right]. }
  rewrite (Boilerplate.replace_pieces
             "L" "et me know if you need any further assistance!").
  2:{ eapply Forall_impl; [|exact H1].
      intros p [->|Hs]; [now left|right].
      unfold inert_piece in Hs. now apply andb_true_iff in Hs as [_ Hs]. }
  fold p2. do 2 f_equal. subst pieces1. clear.
  induction pieces as [|p pieces IH]; [reflexivity|].
  cbn [filter]. unfold denylisted at 1. cbn [existsb unwanted_phrases].
  fold p1 p2. rewrite orb_false_r.
  destruct (String.eqb p p1); cbn [negb orb]; [exact IH|].
  cbn [filter]. destruct (String.eqb p p2); cbn [negb]; [exact IH|].
  now rewrite IH.
Qed.

Lemma clean_content_removes_phrases_witness :
  clean_content
    (assemble [ "Here is the formatted blog post:"; " my post, unchanged. ";
                "Let me know if you need any further assistance!" ])
  = PyStr.strip (assemble [ " my post, unchanged. " ]).
Proof.
  apply (clean_content_removes_phrases
           [ "Here is the formatted blog post:"; " my post, unchanged. ";
             "Let me know if you need any further assistance!" ]).
  reflexivity.
Defined.
